(** * The devnet rug-pull demo: flow controller and payment pipeline

    A shallow embedding of [src/app/page.tsx]: the React component
    [DevnetRugPullDemo], its two async callbacks [connectWallet] and
    [simulateScamFlow], the memoised [explorerTxUrl] and the module-level
    constants.  The component's state is a record, every handler is a
    program in a small state/exception/trace monad, and an async function is
    cut at its [await]s into a continuation type, so that the environment
    (wallet, ledger client, timers, the user) drives the component through
    a labelled transition function [dispatch]. *)

From Stdlib Require Import String Ascii List NArith Bool Lia.
From Stdlib Require PeanoNat.
Import ListNotations.
Local Open Scope string_scope.
Local Open Scope list_scope.

(** ** JavaScript values that reach the component *)

(** A [PublicKey] object of the ledger library, seen through [toBase58]. *)
Record PublicKey : Type := mkPublicKey { toBase58 : string }.

(** What [provider.signAndSendTransaction] resolves with, and what the
    state variable [txSig] can therefore hold at run time: the wallet is
    typed [any], so the reply is either nullish, a string, or an object
    that may carry a string [signature] property. *)
Inductive JsVal : Type :=
| JUndefined
| JNull
| JString (s : string)
| JObject (signature : option string).

(** A thrown value or a promise's rejection reason.  [catch (e)] receives
    any value: [Nullish] is [null] or [undefined], every other value has a
    [message] property or not. *)
Inductive Thrown : Type :=
| Nullish
| ErrorValue (message : option string).

(** [new Error(msg)]. *)
Definition Error_new (msg : string) : Thrown := ErrorValue (Some msg).

(** The [TypeError] raised by reading a property of [null]/[undefined]. *)
Definition TypeError_read_message : Thrown :=
  ErrorValue (Some "Cannot read properties of undefined (reading 'message')").

(** Truthiness of a string, and of a [string | null]. *)
Definition truthy_string (s : string) : bool :=
  match s with EmptyString => false | String _ _ => true end.

Definition truthy_opt (o : option string) : bool :=
  match o with Some s => truthy_string s | None => false end.

Definition truthy (v : JsVal) : bool :=
  match v with
  | JUndefined | JNull => false
  | JString s => truthy_string s
  | JObject _ => true
  end.

(** [m || fallback] for an optional string property. *)
Definition or_string (m : option string) (fallback : string) : string :=
  if truthy_opt m then match m with Some s => s | None => fallback end
  else fallback.

(** Template-literal conversion [`${v}`]. *)
Definition to_template (v : JsVal) : string :=
  match v with
  | JUndefined => "undefined"
  | JNull => "null"
  | JString s => s
  | JObject _ => "[object Object]"
  end.

(** ** Module-level constants (lines 27-32) *)

Definition DEFAULT_ADDR : string := "9xXFaJ6tDa3s8o1y6g8c2o1j9nKkz9g9m5A2wVvQ3Z9T".

(** [ENV_ADDR || DEFAULT_ADDR]: the environment string when it is set and
    non-empty. *)
Definition configured_address (ENV_ADDR : option string) : string :=
  or_string ENV_ADDR DEFAULT_ADDR.

Section ModuleLoad.
(** The constructor [new PublicKey(string)] belongs to the ledger
    library; [None] stands for its exception on a malformed address. *)
Variable PublicKey_new : string -> option PublicKey.

(** Evaluating the module: [DEMO_SCAMMER_ADDRESS] is built once, before
    the component exists; when the constructor throws, the module does
    not load and there is no component at all. *)
Definition load_DEMO_SCAMMER_ADDRESS (ENV_ADDR : option string)
  : option PublicKey :=
  PublicKey_new (configured_address ENV_ADDR).
End ModuleLoad.

(** *** A reference instance of the address check

    The ledger library decodes the string as base 58 and demands exactly
    32 bytes.  It is used below to instantiate [PublicKey_new]. *)
Definition base58_alphabet : string :=
  "123456789ABCDEFGHJKLMNPQRSTUVWXYZabcdefghijkmnopqrstuvwxyz".

Fixpoint index_of (c : ascii) (alphabet : string) : option N :=
  match alphabet with
  | EmptyString => None
  | String a rest =>
      if Ascii.eqb c a then Some 0%N
      else option_map N.succ (index_of c rest)
  end.

Definition base58_digit (c : ascii) : option N := index_of c base58_alphabet.

Fixpoint is_base58 (s : string) : bool :=
  match s with
  | EmptyString => true
  | String c rest =>
      match base58_digit c with Some _ => is_base58 rest | None => false end
  end.

Fixpoint base58_value (acc : N) (s : string) : option N :=
  match s with
  | EmptyString => Some acc
  | String c rest =>
      match base58_digit c with
      | Some d => base58_value (acc * 58 + d)%N rest
      | None => None
      end
  end.

Fixpoint leading_ones (s : string) : N :=
  match s with
  | String "1"%char rest => N.succ (leading_ones rest)
  | _ => 0%N
  end.

(** Number of bytes of the big-endian representation without leading zeros. *)
Definition byte_size (n : N) : N := ((N.size n + 7) / 8)%N.

Definition base58_decoded_length (s : string) : option N :=
  option_map (fun v => (leading_ones s + byte_size v)%N) (base58_value 0 s).

Definition base58_PublicKey_new (s : string) : option PublicKey :=
  match base58_decoded_length s with
  | Some 32%N => Some (mkPublicKey s)
  | _ => None
  end.

(** ** The component's state (lines 37-51) *)

Inductive DemoStep : Type :=
| Intro | Form | Processing | Error | RefundFunnel | Done.

Record UIState : Type := mkUI {
  walletAvailable : bool;
  publicKey : option string;
  connecting : bool;
  busy : bool;
  txSig : JsVal;
  step : DemoStep;
  showDetails : bool;
  showRedFlags : bool
}.

(** The [useState] initial values. *)
Definition initial_state : UIState :=
  mkUI false None false false JNull Intro false false.

(** ** The ledger transaction built by the pipeline (lines 88-94) *)

Record Transfer : Type := mkTransfer {
  fromPubkey : PublicKey;
  toPubkey : PublicKey;
  lamports : N
}.

Record Transaction : Type := mkTransaction {
  recentBlockhash : string;
  feePayer : PublicKey;
  instructions : list Transfer
}.

(** ** Everything observable that a handler does, in program order *)

Inductive Action : Type :=
| SetWalletAvailable (b : bool)
| SetPublicKey (k : option string)
| SetConnecting (b : bool)
| SetBusy (b : bool)
| SetTxSig (v : JsVal)
| SetStep (s : DemoStep)
| SetShowDetails (b : bool)
| SetShowRedFlags (b : bool)
| ConsoleError (e : Thrown)
| Alert (msg : string)
| ProviderConnect
| GetLatestBlockhash (commitment : string)
| SignAndSendTransaction (tx : Transaction)
| ConfirmTransaction (sig : JsVal) (blockhash : string)
    (lastValidBlockHeight : N) (commitment : string)
| SetTimeout (ms : N)
| UnhandledRejection (e : Thrown).

(** ** A monad for the synchronous stretches of a handler

    A stretch of handler code reads and writes the component state, appends
    to the trace of actions, and either returns or throws. *)

Inductive Completion (A : Type) : Type :=
| Ret (a : A)
| Throw (e : Thrown).
Arguments Ret {A} a.
Arguments Throw {A} e.

Definition M (A : Type) : Type :=
  UIState -> Completion A * UIState * list Action.

Definition ret {A} (a : A) : M A := fun s => (Ret a, s, []).

Definition throw {A} (e : Thrown) : M A := fun s => (Throw e, s, []).

Definition bind {A B} (m : M A) (f : A -> M B) : M B :=
  fun s =>
    match m s with
    | (Ret a, s1, t1) =>
        match f a s1 with (c, s2, t2) => (c, s2, t1 ++ t2) end
    | (Throw e, s1, t1) => (Throw e, s1, t1)
    end.

Declare Scope handler_scope.
Delimit Scope handler_scope with handler.
Notation "x <- m ;; k" := (bind m (fun x => k))
  (at level 61, m at next level, right associativity) : handler_scope.
Notation "m ;; k" := (bind m (fun _ => k))
  (at level 61, right associativity) : handler_scope.
Local Open Scope handler_scope.

(** An action that only leaves a mark in the trace. *)
Definition call (a : Action) : M unit := fun s => (Ret tt, s, [a]).

(** The state setters returned by [useState]. *)
Definition setWalletAvailable (b : bool) : M unit := fun s =>
  (Ret tt,
   mkUI b (publicKey s) (connecting s) (busy s) (txSig s) (step s)
     (showDetails s) (showRedFlags s),
   [SetWalletAvailable b]).

Definition setPublicKey (k : option string) : M unit := fun s =>
  (Ret tt,
   mkUI (walletAvailable s) k (connecting s) (busy s) (txSig s) (step s)
     (showDetails s) (showRedFlags s),
   [SetPublicKey k]).

Definition setConnecting (b : bool) : M unit := fun s =>
  (Ret tt,
   mkUI (walletAvailable s) (publicKey s) b (busy s) (txSig s) (step s)
     (showDetails s) (showRedFlags s),
   [SetConnecting b]).

Definition setBusy (b : bool) : M unit := fun s =>
  (Ret tt,
   mkUI (walletAvailable s) (publicKey s) (connecting s) b (txSig s) (step s)
     (showDetails s) (showRedFlags s),
   [SetBusy b]).

Definition setTxSig (v : JsVal) : M unit := fun s =>
  (Ret tt,
   mkUI (walletAvailable s) (publicKey s) (connecting s) (busy s) v (step s)
     (showDetails s) (showRedFlags s),
   [SetTxSig v]).

Definition setStep (d : DemoStep) : M unit := fun s =>
  (Ret tt,
   mkUI (walletAvailable s) (publicKey s) (connecting s) (busy s) (txSig s) d
     (showDetails s) (showRedFlags s),
   [SetStep d]).

Definition setShowDetails (b : bool) : M unit := fun s =>
  (Ret tt,
   mkUI (walletAvailable s) (publicKey s) (connecting s) (busy s) (txSig s)
     (step s) b (showRedFlags s),
   [SetShowDetails b]).

Definition setShowRedFlags (b : bool) : M unit := fun s =>
  (Ret tt,
   mkUI (walletAvailable s) (publicKey s) (connecting s) (busy s) (txSig s)
     (step s) (showDetails s) b,
   [SetShowRedFlags b]).

(** [console.error(e)] and [alert(msg)]. *)
Definition console_error (e : Thrown) : M unit := call (ConsoleError e).
Definition alert (msg : string) : M unit := call (Alert msg).

(** [(e as Error).message]: the cast does nothing at run time, so the
    property read throws a [TypeError] on [null] and [undefined]. *)
Definition read_message (e : Thrown) : M (option string) :=
  match e with
  | Nullish => throw TypeError_read_message
  | ErrorValue m => ret m
  end.

(** ** The wallet handle [window.solana] *)

Record Provider : Type := mkProvider {
  isPhantom : bool;
  isCoinbase : bool;
  isBackpack : bool;
  isConnected : bool;
  provider_publicKey : option PublicKey
}.

(** [provider?.publicKey] *)
Definition current_publicKey (solana : option Provider) : option PublicKey :=
  match solana with
  | Some provider => provider_publicKey provider
  | None => None
  end.

(** [k?.toBase58?.() ?? null] *)
Definition toBase58_or_null (k : option PublicKey) : option string :=
  option_map toBase58 k.

(** The mount effect (lines 58-64). *)
Definition mount_effect (solana : option Provider) : M unit :=
  match solana with
  | None => setWalletAvailable false
  | Some provider =>
      setWalletAvailable (isPhantom provider || isCoinbase provider
                          || isBackpack provider) ;;
      if isPhantom provider && isConnected provider
      then setPublicKey (toBase58_or_null (provider_publicKey provider))
      else ret tt
  end.

(** ** Async functions, cut at their [await]s *)

(** Where [simulateScamFlow] is suspended, with the local variables that
    are still live there. *)
Inductive FlowAwait : Type :=
| AwaitBlockhash (fromPubkey : PublicKey)
    (* line 91: connection.getLatestBlockhash *)
| AwaitSignAndSend (blockhash : string) (lastValidBlockHeight : N)
    (* line 96: provider.signAndSendTransaction *)
| AwaitConfirm (signature : JsVal) (blockhash : string)
    (lastValidBlockHeight : N)
    (* line 98: connection.confirmTransaction *)
| AwaitDelay (remaining : N).
    (* line 102: the 1200 ms timer *)

(** Where [connectWallet] is suspended (line 71: [provider.connect]). *)
Inductive ConnectAwait : Type :=
| AwaitConnect.

(** How a stretch between two awaits ends; [K] is the continuation type of
    the async function. *)
Inductive Pause (K : Type) : Type :=
| Finished
| Suspended (k : K).
Arguments Finished {K}.
Arguments Suspended {K} k.

Definition await {K} (k : K) : M (Pause K) := ret (Suspended k).

(** How the awaited promise settles. *)
Inductive Settled : Type :=
| BlockhashResolved (blockhash : string) (lastValidBlockHeight : N)
| SignatureResolved (sig : JsVal)
| ConfirmResolved
| Rejected (e : Thrown).

Inductive ConnectSettled : Type :=
| ConnectResolved (res_publicKey : option PublicKey)
| ConnectRejected (e : Thrown).

(** [try { body } catch (e) { handler } finally { finalizer }] around one
    stretch of an async function.  A suspended body is still inside the
    [try]; the finalizer runs on every way out, also when the handler
    itself throws, and then the exception leaves the function. *)
Definition try_catch_finally {K} (body : M (Pause K))
    (handler : Thrown -> M unit) (finalizer : M unit) : M (Pause K) :=
  fun s =>
    match body s with
    | (Ret (Suspended k), s1, t1) => (Ret (Suspended k), s1, t1)
    | (Ret Finished, s1, t1) =>
        match finalizer s1 with
        | (Ret _, s2, t2) => (Ret Finished, s2, t1 ++ t2)
        | (Throw e', s2, t2) => (Throw e', s2, t1 ++ t2)
        end
    | (Throw e, s1, t1) =>
        match handler e s1 with
        | (h, s2, t2) =>
            match finalizer s2 with
            | (Ret _, s3, t3) =>
                (match h with Ret _ => Ret Finished | Throw e' => Throw e' end,
                 s3, t1 ++ t2 ++ t3)
            | (Throw e', s3, t3) => (Throw e', s3, t1 ++ t2 ++ t3)
            end
        end
    end.

(** *** [simulateScamFlow] (lines 81-111) *)

Definition sig_signature (sig : JsVal) : option string :=
  match sig with JObject p => p | _ => None end.

(** [sig?.signature || sig] *)
Definition signature_of (sig : JsVal) : JsVal :=
  if truthy_opt (sig_signature sig)
  then match sig_signature sig with Some s => JString s | None => sig end
  else sig.

Section Component.
Variable DEMO_SCAMMER_ADDRESS : PublicKey.

(** Lines 83-91, up to the first [await]. *)
Definition simulateScamFlow_entry (solana : option Provider)
  : M (Pause FlowAwait) :=
  setBusy true ;;
  setStep Processing ;;
  match current_publicKey solana with
  | None => throw (Error_new "Wallet not connected.")
  | Some fromPubkey =>
      call (GetLatestBlockhash "confirmed") ;;
      await (AwaitBlockhash fromPubkey)
  end.

(** Lines 91-103, from one [await] to the next.  [None]: the settlement
    is not the one this await waits for. *)
Definition simulateScamFlow_resume (k : FlowAwait) (r : Settled)
  : option (M (Pause FlowAwait)) :=
  match k, r with
  | AwaitBlockhash fromPubkey, BlockhashResolved blockhash lastValidBlockHeight =>
      Some (let lamports := 1000000%N in
            let tx :=
              mkTransaction blockhash fromPubkey
                [mkTransfer fromPubkey DEMO_SCAMMER_ADDRESS lamports] in
            call (SignAndSendTransaction tx) ;;
            await (AwaitSignAndSend blockhash lastValidBlockHeight))
  | AwaitSignAndSend blockhash lastValidBlockHeight, SignatureResolved sig =>
      Some (let signature := signature_of sig in
            call (ConfirmTransaction signature blockhash
                    lastValidBlockHeight "confirmed") ;;
            await (AwaitConfirm signature blockhash lastValidBlockHeight))
  | AwaitConfirm signature _ _, ConfirmResolved =>
      Some (setTxSig signature ;;
            call (SetTimeout 1200) ;;
            await (AwaitDelay 1200))
  | AwaitBlockhash _, Rejected e
  | AwaitSignAndSend _ _, Rejected e
  | AwaitConfirm _ _ _, Rejected e => Some (throw e)
  | _, _ => None
  end.

(** Line 103, when the timer fires. *)
Definition simulateScamFlow_after_delay : M (Pause FlowAwait) :=
  setStep Error ;;
  ret Finished.

(** Lines 104-107. *)
Definition simulateScamFlow_catch (e : Thrown) : M unit :=
  console_error e ;;
  message <- read_message e ;;
  alert (or_string message "Transaction failed") ;;
  setStep Form.

(** Lines 108-110. *)
Definition simulateScamFlow_finally : M unit := setBusy false.

Definition simulateScamFlow_try (body : M (Pause FlowAwait))
  : M (Pause FlowAwait) :=
  try_catch_finally body simulateScamFlow_catch simulateScamFlow_finally.

(** *** [connectWallet] (lines 66-79) *)

Definition connectWallet_entry (solana : option Provider)
  : M (Pause ConnectAwait) :=
  setConnecting true ;;
  match solana with
  | None =>
      throw (Error_new
               "No Solana wallet found. Install Phantom and switch to Devnet.")
  | Some _ =>
      call ProviderConnect ;;
      await AwaitConnect
  end.

Definition connectWallet_resume (r : ConnectSettled)
  : M (Pause ConnectAwait) :=
  match r with
  | ConnectResolved res_publicKey =>
      setPublicKey (toBase58_or_null res_publicKey) ;;
      ret Finished
  | ConnectRejected e => throw e
  end.

Definition connectWallet_catch (e : Thrown) : M unit :=
  console_error e ;;
  message <- read_message e ;;
  alert (or_string message "Failed to connect wallet").

Definition connectWallet_finally : M unit := setConnecting false.

Definition connectWallet_try (body : M (Pause ConnectAwait))
  : M (Pause ConnectAwait) :=
  try_catch_finally body connectWallet_catch connectWallet_finally.

(** ** The running page

    The component state, the ambient wallet handle, and the async calls
    that are suspended at an [await]. *)
Record World : Type := mkWorld {
  ui : UIState;
  solana : option Provider;
  flows : list FlowAwait;
  connects : list ConnectAwait
}.

(** Mounting the component on a page whose wallet handle is [p]. *)
Definition mount (p : option Provider) : World :=
  match mount_effect p initial_state with
  | (_, s, _) => mkWorld s p [] []
  end.

(** What the user and the environment can do to the page. *)
Inductive Event : Type :=
| ClickStart                        (* line 153 *)
| ClickCreateToken                  (* line 173 *)
| ClickGetRefund                    (* line 195 *)
| ClickFinishDemo                   (* line 208 *)
| ClickConnectWallet                (* line 131 *)
| ClickShowRedFlags                 (* line 141 *)
| ClickToggleDetails                (* line 142 *)
| ClickCloseRedFlags                (* line 247 *)
| WalletChanged (p : option Provider)
| FlowSettled (i : nat) (r : Settled)
| ConnectionSettled (i : nat) (r : ConnectSettled)
| Elapse (ms : N).

Definition DemoStep_eqb (a b : DemoStep) : bool :=
  match a, b with
  | Intro, Intro | Form, Form | Processing, Processing | Error, Error
  | RefundFunnel, RefundFunnel | Done, Done => true
  | _, _ => false
  end.

(** Which buttons the render shows enabled. *)
Definition start_enabled (s : UIState) : bool := DemoStep_eqb (step s) Intro.

(** [step === "form"] and not [disabled={!publicKey || busy}]. *)
Definition createToken_enabled (s : UIState) : bool :=
  DemoStep_eqb (step s) Form
  && negb (negb (truthy_opt (publicKey s)) || busy s).

Definition getRefund_enabled (s : UIState) : bool :=
  DemoStep_eqb (step s) Error.

Definition finishDemo_enabled (s : UIState) : bool :=
  DemoStep_eqb (step s) RefundFunnel.

(** Rendered when [!publicKey], with [disabled={connecting}]. *)
Definition connectWallet_enabled (s : UIState) : bool :=
  negb (truthy_opt (publicKey s)) && negb (connecting s).

(** Nobody awaits the promise of an async click handler: a rejection is
    an unhandled one. *)
Definition promise_actions {K} (c : Completion (Pause K)) : list Action :=
  match c with
  | Throw e => [UnhandledRejection e]
  | Ret _ => []
  end.

Fixpoint replace_nth {K} (i : nat) (k : K) (l : list K) : list K :=
  match l, i with
  | [], _ => []
  | _ :: rest, O => k :: rest
  | x :: rest, S j => x :: replace_nth j k rest
  end.

Fixpoint remove_nth {K} (i : nat) (l : list K) : list K :=
  match l, i with
  | [], _ => []
  | _ :: rest, O => rest
  | x :: rest, S j => x :: remove_nth j rest
  end.

(** The pending calls after a new call ran up to its first pause. *)
Definition spawned {K} (pending : list K) (c : Completion (Pause K))
  : list K :=
  match c with
  | Ret (Suspended k) => pending ++ [k]
  | _ => pending
  end.

(** The pending calls after call [i] ran up to its next pause. *)
Definition resumed {K} (pending : list K) (i : nat)
    (c : Completion (Pause K)) : list K :=
  match c with
  | Ret (Suspended k) => replace_nth i k pending
  | _ => remove_nth i pending
  end.

(** Time passes: every due timer of a suspended flow fires. *)
Fixpoint elapse (ms : N) (pending : list FlowAwait) (s : UIState)
  : list FlowAwait * UIState * list Action :=
  match pending with
  | [] => ([], s, [])
  | AwaitDelay remaining :: rest =>
      if (remaining <=? ms)%N then
        match simulateScamFlow_try simulateScamFlow_after_delay s with
        | (c, s1, t1) =>
            match elapse ms rest s1 with
            | (rest', s2, t2) =>
                (match c with
                 | Ret (Suspended k) => k :: rest'
                 | _ => rest'
                 end, s2, t1 ++ promise_actions c ++ t2)
            end
        end
      else
        match elapse ms rest s with
        | (rest', s2, t2) => (AwaitDelay (remaining - ms) :: rest', s2, t2)
        end
  | k :: rest =>
      match elapse ms rest s with
      | (rest', s2, t2) => (k :: rest', s2, t2)
      end
  end.

(** A plain synchronous handler. *)
Definition run_sync (w : World) (m : M unit) : World * list Action :=
  match m (ui w) with
  | (_, s, t) => (mkWorld s (solana w) (flows w) (connects w), t)
  end.

(** One event.  A click on a button that is not rendered or is disabled,
    and a settlement nobody waits for, leave the page as it is. *)
Definition dispatch (w : World) (e : Event) : World * list Action :=
  match e with
  | ClickStart =>
      if start_enabled (ui w) then run_sync w (setStep Form) else (w, [])
  | ClickCreateToken =>
      if createToken_enabled (ui w) then
        match simulateScamFlow_try (simulateScamFlow_entry (solana w)) (ui w) with
        | (c, s, t) =>
            (mkWorld s (solana w) (spawned (flows w) c) (connects w),
             t ++ promise_actions c)
        end
      else (w, [])
  | ClickGetRefund =>
      if getRefund_enabled (ui w) then run_sync w (setStep RefundFunnel)
      else (w, [])
  | ClickFinishDemo =>
      if finishDemo_enabled (ui w) then run_sync w (setStep Done)
      else (w, [])
  | ClickConnectWallet =>
      if connectWallet_enabled (ui w) then
        match connectWallet_try (connectWallet_entry (solana w)) (ui w) with
        | (c, s, t) =>
            (mkWorld s (solana w) (flows w) (spawned (connects w) c),
             t ++ promise_actions c)
        end
      else (w, [])
  | ClickShowRedFlags => run_sync w (setShowRedFlags true)
  | ClickToggleDetails =>
      run_sync w (setShowDetails (negb (showDetails (ui w))))
  | ClickCloseRedFlags =>
      if showRedFlags (ui w) then run_sync w (setShowRedFlags false)
      else (w, [])
  | WalletChanged p => (mkWorld (ui w) p (flows w) (connects w), [])
  | FlowSettled i r =>
      match nth_error (flows w) i with
      | Some k =>
          match simulateScamFlow_resume k r with
          | Some body =>
              match simulateScamFlow_try body (ui w) with
              | (c, s, t) =>
                  (mkWorld s (solana w) (resumed (flows w) i c) (connects w),
                   t ++ promise_actions c)
              end
          | None => (w, [])
          end
      | None => (w, [])
      end
  | ConnectionSettled i r =>
      match nth_error (connects w) i with
      | Some AwaitConnect =>
          match connectWallet_try (connectWallet_resume r) (ui w) with
          | (c, s, t) =>
              (mkWorld s (solana w) (flows w) (resumed (connects w) i c),
               t ++ promise_actions c)
          end
      | None => (w, [])
      end
  | Elapse ms =>
      match elapse ms (flows w) (ui w) with
      | (pending, s, t) => (mkWorld s (solana w) pending (connects w), t)
      end
  end.

(** A run: the events in order, with what each one did. *)
Fixpoint run (w : World) (es : list Event)
  : World * list (Event * list Action) :=
  match es with
  | [] => (w, [])
  | e :: rest =>
      match dispatch w e with
      | (w1, t) =>
          match run w1 rest with
          | (w2, tr) => (w2, (e, t) :: tr)
          end
      end
  end.

Definition final (w : World) (es : list Event) : World := fst (run w es).
Definition history (w : World) (es : list Event)
  : list (Event * list Action) := snd (run w es).

(** Every page state the component can be in. *)
Inductive reachable : World -> Prop :=
| reachable_mount (p : option Provider) : reachable (mount p)
| reachable_dispatch (w : World) (e : Event) :
    reachable w -> reachable (fst (dispatch w e)).

(** *** [explorerTxUrl] (lines 53-56) *)
Definition explorerTxUrl (s : UIState) : option string :=
  if truthy (txSig s)
  then Some ("https://explorer.solana.com/tx/" ++ to_template (txSig s)
             ++ "?cluster=devnet")%string
  else None.
End Component.


(** ** What the render shows (lines 34, 113-218) *)

(** [Array.prototype.join] on strings. *)
Fixpoint join (sep : string) (l : list string) : string :=
  match l with
  | [] => EmptyString
  | [s] => s
  | s :: rest => (s ++ sep ++ join sep rest)%string
  end.

(** [cx] (line 34): [classes.filter(Boolean).join(" ")]. *)
Definition cx (classes : list string) : string :=
  join " " (filter truthy_string classes).

(** The control at the right of the header (lines 130-136): the connect
    button with its label and its [disabled] attribute, or the key. *)
Inductive HeaderView : Type :=
| ConnectButton (label : string) (disabled : bool)
| ConnectedAs (text : string).

Definition render_header (s : UIState) : HeaderView :=
  if negb (truthy_opt (publicKey s)) then
    ConnectButton
      (if connecting s then "Connecting…"
       else if walletAvailable s then "Connect Wallet"
       else "Install Phantom")
      (connecting s)
  else
    ConnectedAs
      ("Connected: "
       ++ match publicKey s with Some k => k | None => EmptyString end)%string.

(** The submit button of the form (line 173), when the form is rendered. *)
Record ButtonView : Type := mkButton {
  button_label : string;
  button_disabled : bool
}.

Definition render_createToken (s : UIState) : option ButtonView :=
  match step s with
  | Form =>
      Some (mkButton
              (if busy s then "Processing…"
               else if negb (truthy_opt (publicKey s))
                    then "Connect Wallet to Continue"
                    else "Create Token")
              (negb (truthy_opt (publicKey s)) || busy s))
  | _ => None
  end.

(** The payment link, [{txSig && <a href={explorerTxUrl!}>}], which the
    form (lines 174-176), the error step (line 194) and the final step
    (line 215) render: its [href] when it is shown. *)
Definition render_payment_link (s : UIState) : option (option string) :=
  match step s with
  | Form | Error | Done =>
      if truthy (txSig s) then Some (explorerTxUrl s) else None
  | _ => None
  end.

(** * Vocabulary of the properties *)

(** The steps that only a confirmed payment leads to. *)
Definition after_payment (d : DemoStep) : bool :=
  match d with
  | Error | RefundFunnel | Done => true
  | _ => false
  end.

Definition is_delay (k : FlowAwait) : bool :=
  match k with AwaitDelay _ => true | _ => false end.

(** The page invariant: at most one flow is suspended; [busy] is set
    exactly while one is, and then the step is [Processing]; [txSig] has
    left [null] only once a flow has passed its confirmation. *)
Definition page_invariant (w : World) : Prop :=
  match flows w with
  | [] =>
      busy (ui w) = false
      /\ (txSig (ui w) = JNull \/ after_payment (step (ui w)) = true)
  | [k] =>
      busy (ui w) = true
      /\ step (ui w) = Processing
      /\ (txSig (ui w) = JNull \/ is_delay k = true)
  | _ :: _ :: _ => False
  end.

(** What the flow controller is about: the suspended flows and the three
    state variables the pipeline writes. *)
Definition core (w : World) : list FlowAwait * bool * JsVal * DemoStep :=
  (flows w, busy (ui w), txSig (ui w), step (ui w)).

(** Events that concern the wallet connection and the overlays only. *)
Definition inert (e : Event) : bool :=
  match e with
  | ClickConnectWallet | ClickShowRedFlags | ClickToggleDetails
  | ClickCloseRedFlags | WalletChanged _ | ConnectionSettled _ _ => true
  | _ => false
  end.

(** Events addressed to the first suspended flow. *)
Definition addresses_flow (e : Event) : bool :=
  match e with
  | FlowSettled O _ => true
  | _ => false
  end.

(** ** Sample pages

    A page loaded with the built-in recipient, visited with a connected
    Phantom wallet, at the successive awaits of one payment. *)
Definition demo_address : PublicKey := mkPublicKey DEFAULT_ADDR.

Definition payer : PublicKey :=
  mkPublicKey "4Nd1mYQzvgV8Vr3Z3nYb7pD6T8K3yJ8QbT9vX2aB5cDe".

Definition phantom_wallet : option Provider :=
  Some (mkProvider true false false true (Some payer)).

Definition page_on_form : World :=
  final demo_address (mount phantom_wallet) [ClickStart].

Definition page_awaiting_blockhash : World :=
  final demo_address page_on_form [ClickCreateToken].

Definition page_awaiting_signature : World :=
  final demo_address page_awaiting_blockhash
    [FlowSettled 0 (BlockhashResolved "R1" 100)].

Definition page_awaiting_confirmation : World :=
  final demo_address page_awaiting_signature
    [FlowSettled 0 (SignatureResolved (JObject (Some "SIG1")))].

Definition page_after_payment : World :=
  final demo_address page_awaiting_confirmation
    [FlowSettled 0 ConfirmResolved].

(** One day, in milliseconds. *)
Definition one_day : N := 86400000.

(** Calls that leave the page for the ledger or the wallet. *)
Definition pipeline_call (a : Action) : bool :=
  match a with
  | GetLatestBlockhash _ | SignAndSendTransaction _
  | ConfirmTransaction _ _ _ _ => true
  | _ => false
  end.

(** The sample form after the wallet extension dropped its account: the
    component still remembers the key it read at mount. *)
Definition page_wallet_gone : World :=
  final demo_address page_on_form [WalletChanged None].

(** The sample page visited without any wallet. *)
Definition page_without_wallet : World :=
  final demo_address (mount None) [ClickStart].

(** ** Reading an explorer link back *)

Definition explorer_base : string := "https://explorer.solana.com".
Definition test_cluster : string := "devnet".

(** A signature as the ledger prints it: a non-empty base-58 string. *)
Definition is_signature (s : string) : bool :=
  truthy_string s && is_base58 s.

Fixpoint strip_prefix (prefix s : string) : option string :=
  match prefix with
  | EmptyString => Some s
  | String a prefix' =>
      match s with
      | EmptyString => None
      | String b s' =>
          if Ascii.eqb a b then strip_prefix prefix' s' else None
      end
  end.

(** The part of [s] before the first [sep], and what follows it if [sep]
    occurs. *)
Fixpoint split_at (sep : ascii) (s : string) : string * option string :=
  match s with
  | EmptyString => (EmptyString, None)
  | String c rest =>
      if Ascii.eqb c sep then (EmptyString, Some rest)
      else match split_at sep rest with
           | (before, after) => (String c before, after)
           end
  end.

(** Modelled from the spec: the parser of an explorer link is not part of
    the page; the spec only says that the link
    [<explorer-base>/tx/<signature>?cluster=<cluster>], "when parsed,
    recovers the same signature and a fixed cluster tag".  This is the
    usual reading of such a URL: the fragment after [#] is dropped, the
    path ends at the first [?], the last path segment after [/tx/] is the
    signature and the query is the one parameter [cluster]. *)
Definition parse_explorer_link (url : string) : option (string * string) :=
  match strip_prefix (explorer_base ++ "/tx/") (fst (split_at "#" url)) with
  | Some rest =>
      match split_at "?" rest with
      | (signature, Some query) =>
          match strip_prefix "cluster=" query with
          | Some cluster => Some (signature, cluster)
          | None => None
          end
      | (_, None) => None
      end
  | None => None
  end.

(** A component state that differs from the initial one in [txSig] only,
    and one that differs in everything else too. *)
Definition state_with_txSig (v : JsVal) : UIState :=
  mkUI false None false false v Intro false false.

Definition other_state_with_txSig (v : JsVal) : UIState :=
  mkUI true (Some "4Nd1mYQzvgV8Vr3Z3nYb7pD6T8K3yJ8QbT9vX2aB5cDe") false false
    v Done true true.

(** A devnet signature. *)
Definition sample_signature : string :=
  "5VERv8NMvzbJMEkV8xnrLkEaWRtSz9CosKDYjCJjBRnbJLgp8uirBgmQpjKhoR4tjF3ZpRzrFmBV6UjKdiSZkQUW".

(** ** The ledger-reference discipline, as a monitor of runs

    A reference is the pair (blockhash, lastValidBlockHeight) that
    [getLatestBlockhash] resolves with. *)
Inductive RefUse : Type :=
| NoRequest
    (* nothing fetched since the last confirmation request *)
| Requested
    (* getLatestBlockhash was called and nothing submitted since *)
| Submitted (blockhash : string) (lastValidBlockHeight : N).
    (* a transaction went out with this reference *)

(** The reference an event delivers to the page, if any. *)
Definition delivered (e : Event) : option (string * N) :=
  match e with
  | FlowSettled _ (BlockhashResolved blockhash lastValidBlockHeight) =>
      Some (blockhash, lastValidBlockHeight)
  | _ => None
  end.

(** One action of the handler of [e].  A submission is accepted only
    when a fetch was requested since the last submission and the
    transaction carries the very blockhash that [e] delivers; a
    confirmation request only for the reference of the last submission.
    [None]: the discipline is broken. *)
Definition monitor_action (e : Event) (m : RefUse) (a : Action)
  : option RefUse :=
  match a with
  | GetLatestBlockhash _ => Some Requested
  | SignAndSendTransaction tx =>
      match m, delivered e with
      | Requested, Some (blockhash, lastValidBlockHeight) =>
          if String.eqb (recentBlockhash tx) blockhash
          then Some (Submitted blockhash lastValidBlockHeight)
          else None
      | _, _ => None
      end
  | ConfirmTransaction _ blockhash lastValidBlockHeight _ =>
      match m with
      | Submitted blockhash' lastValidBlockHeight' =>
          if String.eqb blockhash blockhash'
             && N.eqb lastValidBlockHeight lastValidBlockHeight'
          then Some NoRequest
          else None
      | _ => None
      end
  | _ => Some m
  end.

Fixpoint monitor_actions (e : Event) (m : RefUse) (t : list Action)
  : option RefUse :=
  match t with
  | [] => Some m
  | a :: rest =>
      match monitor_action e m a with
      | Some m' => monitor_actions e m' rest
      | None => None
      end
  end.

Fixpoint monitor (m : RefUse) (tr : list (Event * list Action))
  : option RefUse :=
  match tr with
  | [] => Some m
  | (e, t) :: rest =>
      match monitor_actions e m t with
      | Some m' => monitor m' rest
      | None => None
      end
  end.

Definition references_fresh (tr : list (Event * list Action)) : bool :=
  match monitor NoRequest tr with
  | Some _ => true
  | None => false
  end.

(** How the monitor and the page agree on an outstanding reference. *)
Definition agrees (w : World) (m : RefUse) : Prop :=
  match flows w with
  | [AwaitBlockhash _] => m = Requested
  | [AwaitSignAndSend blockhash lastValidBlockHeight] =>
      m = Submitted blockhash lastValidBlockHeight
  | _ => True
  end.

(** A run that would break the discipline: one reference, two
    submissions. *)
Definition reused_reference_run : list (Event * list Action) :=
  [(ClickCreateToken, [GetLatestBlockhash "confirmed"]);
   (FlowSettled 0 (BlockhashResolved "R1" 100),
    [SignAndSendTransaction (mkTransaction "R1" payer [])]);
   (FlowSettled 0 (Rejected (Error_new "declined")), [Alert "declined"]);
   (ClickCreateToken,
    [SignAndSendTransaction (mkTransaction "R1" payer [])])].

(** Two payment attempts on the sample page: the first is declined in the
    wallet, the second goes through. *)
Definition two_attempts : list Event :=
  [ClickStart; ClickCreateToken;
   FlowSettled 0 (BlockhashResolved "R1" 100);
   FlowSettled 0 (Rejected (Error_new "User rejected the request."));
   ClickCreateToken;
   FlowSettled 0 (BlockhashResolved "R2" 105);
   FlowSettled 0 (SignatureResolved (JObject (Some "SIG2")));
   FlowSettled 0 ConfirmResolved;
   Elapse 1200].

(** ** Vocabulary of the further properties *)

(** The wallet-connection invariant: at most one [connectWallet] call is
    suspended, [connecting] is set exactly while one is, and then the
    component holds no key; a suspended payment flow means it holds one. *)
Definition connect_invariant (w : World) : Prop :=
  match connects w with
  | [] => connecting (ui w) = false
  | [AwaitConnect] =>
      connecting (ui w) = true /\ truthy_opt (publicKey (ui w)) = false
  | _ :: _ :: _ => False
  end
  /\ (flows w <> [] -> truthy_opt (publicKey (ui w)) = true).

(** A page visited with Phantom installed but locked, after "Start" and a
    click on "Connect Wallet". *)
Definition phantom_locked : option Provider :=
  Some (mkProvider true false false false None).

Definition page_connecting : World :=
  final demo_address (mount phantom_locked) [ClickStart; ClickConnectWallet].

(** The step changes the page makes, each with the event that makes it. *)
Definition step_change (a : DemoStep) (e : Event) (b : DemoStep) : bool :=
  match a, e, b with
  | Intro, ClickStart, Form => true
  | Form, ClickCreateToken, Processing => true
  | Processing, FlowSettled O (Rejected _), Form => true
  | Processing, Elapse _, Error => true
  | Error, ClickGetRefund, RefundFunnel => true
  | RefundFunnel, ClickFinishDemo, Done => true
  | _, _, _ => false
  end.

(** The sample page at the end of the demo. *)
Definition page_done : World :=
  final demo_address page_after_payment
    [Elapse 1200; ClickGetRefund; ClickFinishDemo].

(** Everything a visitor could still try there. *)
Definition frantic_clicks : list Event :=
  [ClickCreateToken; ClickStart; ClickGetRefund; ClickFinishDemo;
   ClickConnectWallet; Elapse one_day;
   FlowSettled 0 (Rejected (Error_new "late")); ClickToggleDetails].

(** A run in which the page calls neither the ledger nor the wallet's
    signing. *)
Definition quiet (tr : list (Event * list Action)) : bool :=
  forallb (fun et => forallb (fun a => negb (pipeline_call a)) (snd et)) tr.

(** The sample page after the wallet rejected the signing request without
    giving a reason. *)
Definition page_stranded : World :=
  final demo_address page_awaiting_signature
    [FlowSettled 0 (Rejected Nullish)].

(** What the source says about the event behind each call that leaves the
    page. *)
Definition call_origin (w : World) (e : Event) (a : Action) : Prop :=
  match a with
  | GetLatestBlockhash commitment =>
      e = ClickCreateToken /\ createToken_enabled (ui w) = true
      /\ current_publicKey (solana w) <> None /\ commitment = "confirmed"
  | ConfirmTransaction sg bh h commitment =>
      exists i sig,
        e = FlowSettled i (SignatureResolved sig)
        /\ nth_error (flows w) i = Some (AwaitSignAndSend bh h)
        /\ sg = signature_of sig /\ commitment = "confirmed"
  | ProviderConnect =>
      e = ClickConnectWallet /\ connectWallet_enabled (ui w) = true
      /\ solana w <> None
  | SetTimeout ms =>
      ms = 1200%N
      /\ exists i sg bh h,
           e = FlowSettled i ConfirmResolved
           /\ nth_error (flows w) i = Some (AwaitConfirm sg bh h)
  | SetTxSig v =>
      exists i bh h,
        e = FlowSettled i ConfirmResolved
        /\ nth_error (flows w) i = Some (AwaitConfirm v bh h)
  | _ => True
  end.

(** A wallet the probe does not know, installed after the page was
    opened without any. *)
Definition unknown_wallet : option Provider :=
  Some (mkProvider false false false false None).

Definition page_wallet_installed_later : World :=
  final demo_address (mount None) [ClickStart; WalletChanged unknown_wallet].

(** A connected Coinbase wallet. *)
Definition coinbase_connected : option Provider :=
  Some (mkProvider false true false true (Some payer)).

(** A run in which [confirmTransaction] was called for the signature
    [sg]. *)
Definition confirmation_requested (tr : list (Event * list Action))
    (sg : JsVal) : Prop :=
  exists e t bh h,
    In (e, t) tr /\ In (ConfirmTransaction sg bh h "confirmed") t.

(** The run of the sample page through a confirmed payment. *)
Definition paid_run : list Event :=
  [ClickStart; ClickCreateToken;
   FlowSettled 0 (BlockhashResolved "R1" 100);
   FlowSettled 0 (SignatureResolved (JObject (Some "SIG1")));
   FlowSettled 0 ConfirmResolved].

(** Two class strings put side by side, as [cx] does with its arguments. *)
Definition glue (a b : string) : string :=
  if truthy_string a
  then if truthy_string b then (a ++ " " ++ b)%string else a
  else b.

(** The sample form, with the visitor switched to another account in the
    wallet since the page read the key. *)
Definition other_account : PublicKey :=
  mkPublicKey "7Np41oeYqPefeNQEHSv1UDhYrehxin3NStELsSKCT4K2".

Definition page_account_switched : World :=
  final demo_address page_on_form
    [WalletChanged (Some (mkProvider true false false true (Some other_account)))].

(** How often the details were toggled in a run, and where the overlay's
    two buttons leave it. *)
Definition is_toggle (e : Event) : bool :=
  match e with ClickToggleDetails => true | _ => false end.

Definition toggles (es : list Event) : nat := length (filter is_toggle es).

Definition red_flags_after (shown : bool) (es : list Event) : bool :=
  fold_left
    (fun b e =>
       match e with
       | ClickShowRedFlags => true
       | ClickCloseRedFlags => false
       | _ => b
       end) es shown.

(** The number of times a run wrote [txSig]. *)
Definition is_SetTxSig (a : Action) : bool :=
  match a with SetTxSig _ => true | _ => false end.

Fixpoint txSig_writes (tr : list (Event * list Action)) : nat :=
  match tr with
  | [] => 0
  | (_, t) :: rest => length (filter is_SetTxSig t) + txSig_writes rest
  end.

(** Past the confirmation: the timer is running or the step is beyond
    [Processing]. *)
Definition paid (w : World) : Prop :=
  (flows w = [] /\ after_payment (step (ui w)) = true)
  \/ exists remaining, flows w = [AwaitDelay remaining].

(** A visitor who pays, is turned away by a ledger error, and tries
    again and again. *)
Definition persistent_visitor : list Event :=
  [ClickStart; ClickCreateToken;
   FlowSettled 0 (BlockhashResolved "R1" 100);
   FlowSettled 0 (SignatureResolved (JString "SIG1"));
   FlowSettled 0 (Rejected (Error_new "block height exceeded"));
   ClickCreateToken;
   FlowSettled 0 (BlockhashResolved "R2" 105);
   FlowSettled 0 (SignatureResolved (JString "SIG2"));
   FlowSettled 0 ConfirmResolved;
   FlowSettled 0 ConfirmResolved;
   Elapse 1200; ClickCreateToken; FlowSettled 0 ConfirmResolved].

(** * Properties *)

(** Unfolds the handlers and the monad down to the state record. *)
Ltac handlers :=
  cbv beta iota zeta delta
    [dispatch run_sync mount mount_effect
     simulateScamFlow_try simulateScamFlow_entry simulateScamFlow_resume
     simulateScamFlow_after_delay simulateScamFlow_catch
     simulateScamFlow_finally
     connectWallet_try connectWallet_entry connectWallet_resume
     connectWallet_catch connectWallet_finally
     try_catch_finally bind ret throw call await
     setWalletAvailable setPublicKey setConnecting setBusy setTxSig setStep
     setShowDetails setShowRedFlags console_error alert read_message
     spawned resumed promise_actions replace_nth remove_nth
     start_enabled createToken_enabled getRefund_enabled finishDemo_enabled
     connectWallet_enabled DemoStep_eqb initial_state Error_new
     ui solana flows connects
     walletAvailable publicKey connecting busy txSig step showDetails
     showRedFlags fst snd app nth_error negb andb orb
     isPhantom isCoinbase isBackpack isConnected provider_publicKey
     toBase58_or_null option_map].

Section Invariant.
(** The value of [DEMO_SCAMMER_ADDRESS] the module was loaded with. *)
Variable addr : PublicKey.

Lemma mount_invariant (p : option Provider) : page_invariant (mount p).
Proof.
  unfold page_invariant.
  destruct p as [[[] cb bp [] k]|]; handlers; auto.
Qed.

Lemma inert_core (w : World) (e : Event) :
  inert e = true -> core (fst (dispatch addr w e)) = core w.
Proof.
  destruct w as [[wa pk cn b tx st sd sr] sol fl cs].
  destruct e; try discriminate; intros _.
  - destruct (truthy_opt pk) eqn:Hpk, cn, sol; handlers; rewrite ?Hpk;
      reflexivity.
  - reflexivity.
  - reflexivity.
  - destruct sr; reflexivity.
  - reflexivity.
  - destruct (nth_error cs i) as [[]|] eqn:Hi; cbv [dispatch connects];
      rewrite Hi; [|reflexivity].
    destruct r as [k|[|m]]; reflexivity.
Qed.

Lemma core_invariant (w w' : World) :
  core w' = core w -> page_invariant w -> page_invariant w'.
Proof.
  unfold core, page_invariant. intros H. injection H as -> -> -> ->. auto.
Qed.

Lemma core_eq (w : World) (fl : list FlowAwait) (b : bool) (tx : JsVal)
    (d : DemoStep) :
  core w = (fl, b, tx, d) ->
  flows w = fl /\ busy (ui w) = b /\ txSig (ui w) = tx /\ step (ui w) = d.
Proof. unfold core. intros H. injection H as -> -> -> ->. auto. Qed.

Lemma dispatch_invariant (w : World) (e : Event) :
  page_invariant w -> page_invariant (fst (dispatch addr w e)).
Proof.
  destruct (inert e) eqn:He.
  { intros H. eapply core_invariant; [apply inert_core, He|exact H]. }
  unfold page_invariant. intros H.
  destruct w as [[wa pk cn b tx st sd sr] sol fl cs]; cbn in H.
  destruct fl as [|k [|k' fl]]; [| |contradiction].
  - (* nothing in flight *)
    destruct H as [Hb Htx]; subst b.
    destruct e; try discriminate He.
    + destruct st; handlers; auto; destruct Htx; auto; discriminate.
    + destruct st; try (handlers; auto; fail).
      destruct Htx as [->|Hs]; [|discriminate].
      destruct (truthy_opt pk) eqn:Hpk, (current_publicKey sol) eqn:Hk;
        handlers; rewrite ?Hpk, ?Hk; handlers; auto.
    + destruct st; handlers; auto.
    + destruct st; handlers; auto.
    + destruct i; handlers; auto.
    + handlers. cbn. auto.
  - (* one flow in flight *)
    destruct H as (Hb & Hs & Htx); subst b st.
    destruct e; try discriminate He; try (handlers; auto; fail).
    + destruct i as [|[|i]]; try (handlers; auto; fail).
      destruct k, r as [bh h|sg| |[|m]]; handlers; auto;
        destruct Htx as [->|Hd]; try discriminate; auto.
    + destruct k as [f|bh h|sg bh h|rem]; try (handlers; cbn; auto; fail).
      cbv [dispatch elapse flows ui].
      destruct (rem <=? ms)%N; handlers; auto.
Qed.

Lemma reachable_invariant (w : World) :
  reachable addr w -> page_invariant w.
Proof.
  induction 1 as [p|w e _ IH].
  - apply mount_invariant.
  - apply dispatch_invariant, IH.
Qed.

Lemma final_cons (w : World) (e : Event) (es : list Event) :
  final addr w (e :: es) = final addr (fst (dispatch addr w e)) es.
Proof.
  unfold final. cbn. destruct (dispatch addr w e) as [w1 t]. cbn.
  destruct (run addr w1 es). reflexivity.
Qed.

Lemma final_reachable (w : World) (es : list Event) :
  reachable addr w -> reachable addr (final addr w es).
Proof.
  revert w. induction es as [|e es IH]; intros w H; [exact H|].
  rewrite final_cons. apply IH. constructor. exact H.
Qed.

(** The two shapes of a reachable page. *)
Lemma reachable_cases (w : World) :
  reachable addr w ->
  (flows w = [] /\ busy (ui w) = false
   /\ (txSig (ui w) = JNull \/ after_payment (step (ui w)) = true))
  \/ (exists k, flows w = [k] /\ busy (ui w) = true
      /\ step (ui w) = Processing
      /\ (txSig (ui w) = JNull \/ is_delay k = true)).
Proof.
  intros H. apply reachable_invariant in H. unfold page_invariant in H.
  destruct (flows w) as [|k [|k' fl]]; [left; auto|right; eauto|contradiction].
Qed.
End Invariant.

Section Pipeline.
Variable addr : PublicKey.

(** While a flow waits for a call to settle, nothing but the settlement
    of that call touches the flow, [busy], [txSig] or the step. *)
Lemma waiting_core (w : World) (k : FlowAwait) (e : Event) :
  flows w = [k] -> busy (ui w) = true -> step (ui w) = Processing ->
  is_delay k = false -> addresses_flow e = false ->
  core (fst (dispatch addr w e)) = core w.
Proof.
  intros Hf Hb Hs Hk He.
  destruct (inert e) eqn:Hi; [apply inert_core, Hi|].
  destruct w as [[wa pk cn b tx st sd sr] sol fl cs]; cbn in Hf, Hb, Hs.
  subst fl b st.
  destruct e; try discriminate Hi; try (handlers; reflexivity).
  - destruct i as [|[|i]]; [discriminate He|reflexivity|reflexivity].
  - destruct k; try discriminate Hk; reflexivity.
Qed.

Lemma waiting_final (w : World) (k : FlowAwait) (es : list Event) :
  flows w = [k] -> busy (ui w) = true -> step (ui w) = Processing ->
  is_delay k = false -> forallb (fun e => negb (addresses_flow e)) es = true ->
  core (final addr w es) = core w.
Proof.
  revert w. induction es as [|e es IH]; intros w Hf Hb Hs Hk Hes;
    [reflexivity|].
  cbn in Hes. apply andb_true_iff in Hes as [He Hes].
  apply negb_true_iff in He.
  pose proof (waiting_core w k e Hf Hb Hs Hk He) as Hc.
  rewrite final_cons.
  unfold core in Hc. injection Hc as Hf' Hb' Htx' Hs'.
  rewrite IH; try congruence.
  unfold core. congruence.
Qed.

(** A rejection with an error value, at any of the three awaited calls:
    logged, shown, back to the form, [busy] released, promise fulfilled. *)
Lemma rejection_handled (w : World) (k : FlowAwait) (m : option string) :
  flows w = [k] -> is_delay k = false ->
  let w' := fst (dispatch addr w (FlowSettled 0 (Rejected (ErrorValue m)))) in
  snd (dispatch addr w (FlowSettled 0 (Rejected (ErrorValue m))))
  = [ConsoleError (ErrorValue m); Alert (or_string m "Transaction failed");
     SetStep Form; SetBusy false]
  /\ flows w' = [] /\ step (ui w') = Form /\ busy (ui w') = false
  /\ txSig (ui w') = txSig (ui w) /\ publicKey (ui w') = publicKey (ui w).
Proof.
  intros Hf Hk.
  destruct w as [[wa pk cn b tx st sd sr] sol fl cs]; cbn in Hf. subst fl.
  destruct k; try discriminate Hk; cbn; repeat split; reflexivity.
Qed.
End Pipeline.

Section TxSig.
Variable addr : PublicKey.

(** Elapsing time writes neither [txSig] nor anything but the step and
    [busy]. *)
Lemma elapse_txSig (ms : N) (fl : list FlowAwait) (s : UIState) :
  txSig (snd (fst (elapse ms fl s))) = txSig s.
Proof.
  revert s. induction fl as [|k fl IH]; intros s; [reflexivity|].
  destruct k; cbn [elapse];
    try (specialize (IH s); destruct (elapse ms fl s) as [[fl' s'] t'];
         exact IH).
  destruct (remaining <=? ms)%N.
  - destruct (simulateScamFlow_try simulateScamFlow_after_delay s)
      as [[c s1] t1] eqn:E.
    assert (Hs1 : txSig s1 = txSig s).
    { destruct s. cbv in E. injection E as _ <- _. reflexivity. }
    specialize (IH s1). destruct (elapse ms fl s1) as [[fl' s'] t'].
    cbn in *. congruence.
  - specialize (IH s). destruct (elapse ms fl s) as [[fl' s'] t']. exact IH.
Qed.

(** The one write to [txSig]: line 99, after a resolved confirmation. *)
Lemma txSig_dispatch (w : World) (e : Event) :
  txSig (ui (fst (dispatch addr w e)))
  = match e with
    | FlowSettled i ConfirmResolved =>
        match nth_error (flows w) i with
        | Some (AwaitConfirm signature _ _) => signature
        | _ => txSig (ui w)
        end
    | _ => txSig (ui w)
    end.
Proof.
  destruct (inert e) eqn:Hi.
  { pose proof (inert_core addr w e Hi) as Hc. unfold core in Hc.
    injection Hc as _ _ Htx _. rewrite Htx.
    destruct e; try discriminate Hi; reflexivity. }
  destruct w as [[wa pk cn b tx st sd sr] sol fl cs].
  destruct e; try discriminate Hi.
  - destruct st; reflexivity.
  - destruct st; try reflexivity.
    destruct (truthy_opt pk) eqn:Hpk, b, (current_publicKey sol) eqn:Hk;
      handlers; rewrite ?Hpk, ?Hk; reflexivity.
  - destruct st; reflexivity.
  - destruct st; reflexivity.
  - cbv [dispatch flows ui].
    destruct (nth_error fl i) as [k|]; [|destruct r; reflexivity].
    destruct k, r as [bh h|sg| |[|m]]; reflexivity.
  - cbv [dispatch flows ui].
    pose proof (elapse_txSig ms fl
                  (mkUI wa pk cn b tx st sd sr)) as H.
    destruct (elapse ms fl _) as [[fl' s'] t']. exact H.
Qed.

(** On a reachable page whose [txSig] has left [null], no event writes
    [txSig], and the step is past the form for good. *)
Lemma txSig_stable_dispatch (w : World) (e : Event) :
  reachable addr w -> txSig (ui w) <> JNull ->
  txSig (ui (fst (dispatch addr w e))) = txSig (ui w).
Proof.
  intros Hr Hn. rewrite txSig_dispatch.
  destruct e; try reflexivity. destruct r; try reflexivity.
  destruct (reachable_cases addr w Hr)
    as [(Hf & _)|(k & Hf & _ & _ & [Htx|Hd])]; rewrite Hf.
  - destruct i; reflexivity.
  - contradiction.
  - destruct i as [|[|i]]; try reflexivity.
    destruct k; try discriminate Hd; reflexivity.
Qed.

Lemma txSig_stable_final (w : World) (es : list Event) :
  reachable addr w -> txSig (ui w) <> JNull ->
  txSig (ui (final addr w es)) = txSig (ui w).
Proof.
  revert w. induction es as [|e es IH]; intros w Hr Hn; [reflexivity|].
  rewrite final_cons.
  pose proof (txSig_stable_dispatch w e Hr Hn) as H1.
  rewrite IH; [exact H1| constructor; exact Hr | congruence].
Qed.

Lemma paid_step (w : World) :
  reachable addr w -> txSig (ui w) <> JNull ->
  step (ui w) = Processing \/ after_payment (step (ui w)) = true.
Proof.
  intros Hr Hn.
  destruct (reachable_cases addr w Hr)
    as [(_ & _ & [Htx|Hs])|(k & _ & _ & Hs & _)]; auto.
Qed.
End TxSig.

Section Stretches.
Variable addr : PublicKey.

(** The effect of each stretch of [simulateScamFlow] on a page with one
    suspended flow, and of the step buttons. *)
Lemma blockhash_resolved (w : World) (k : PublicKey) (bh : string) (h : N) :
  flows w = [AwaitBlockhash k] ->
  core (fst (dispatch addr w (FlowSettled 0 (BlockhashResolved bh h))))
  = ([AwaitSignAndSend bh h], busy (ui w), txSig (ui w), step (ui w))
  /\ snd (dispatch addr w (FlowSettled 0 (BlockhashResolved bh h)))
     = [SignAndSendTransaction
          (mkTransaction bh k [mkTransfer k addr 1000000])].
Proof.
  destruct w as [[wa pk cn b tx st sd sr] sol fl cs]; cbn. intros ->.
  split; reflexivity.
Qed.

Lemma signature_resolved (w : World) (bh : string) (h : N) (sig : JsVal) :
  flows w = [AwaitSignAndSend bh h] ->
  core (fst (dispatch addr w (FlowSettled 0 (SignatureResolved sig))))
  = ([AwaitConfirm (signature_of sig) bh h], busy (ui w), txSig (ui w),
     step (ui w))
  /\ snd (dispatch addr w (FlowSettled 0 (SignatureResolved sig)))
     = [ConfirmTransaction (signature_of sig) bh h "confirmed"].
Proof.
  destruct w as [[wa pk cn b tx st sd sr] sol fl cs]; cbn. intros ->.
  split; reflexivity.
Qed.

Lemma confirm_resolved (w : World) (sg : JsVal) (bh : string) (h : N) :
  flows w = [AwaitConfirm sg bh h] ->
  core (fst (dispatch addr w (FlowSettled 0 ConfirmResolved)))
  = ([AwaitDelay 1200], busy (ui w), sg, step (ui w))
  /\ snd (dispatch addr w (FlowSettled 0 ConfirmResolved))
     = [SetTxSig sg; SetTimeout 1200].
Proof.
  destruct w as [[wa pk cn b tx st sd sr] sol fl cs]; cbn. intros ->.
  split; reflexivity.
Qed.

Lemma delay_elapsed (w : World) (remaining ms : N) :
  flows w = [AwaitDelay remaining] -> (remaining <= ms)%N ->
  core (fst (dispatch addr w (Elapse ms))) = ([], false, txSig (ui w), Error)
  /\ snd (dispatch addr w (Elapse ms)) = [SetStep Error; SetBusy false].
Proof.
  destruct w as [[wa pk cn b tx st sd sr] sol fl cs]; cbn. intros -> H.
  apply N.leb_le in H. cbv [elapse]. rewrite H. split; reflexivity.
Qed.

Lemma refund_requested (w : World) :
  step (ui w) = Error ->
  core (fst (dispatch addr w ClickGetRefund))
  = (flows w, busy (ui w), txSig (ui w), RefundFunnel).
Proof.
  destruct w as [[wa pk cn b tx st sd sr] sol fl cs]; cbn. intros ->.
  reflexivity.
Qed.

Lemma demo_finished (w : World) :
  step (ui w) = RefundFunnel ->
  core (fst (dispatch addr w ClickFinishDemo))
  = (flows w, busy (ui w), txSig (ui w), Done).
Proof.
  destruct w as [[wa pk cn b tx st sd sr] sol fl cs]; cbn. intros ->.
  reflexivity.
Qed.

Lemma final_one (w : World) (e : Event) :
  final addr w [e] = fst (dispatch addr w e).
Proof. rewrite final_cons. reflexivity. Qed.

Lemma final_app (w : World) (es1 es2 : list Event) :
  final addr w (es1 ++ es2) = final addr (final addr w es1) es2.
Proof.
  revert w. induction es1 as [|e es1 IH]; intros w; [reflexivity|].
  cbn [app]. rewrite !final_cons. apply IH.
Qed.
End Stretches.

(** * The claims *)

(** C1.  Whenever the wallet returns a signature for the submitted payment
    and the ledger confirms it, [txSig] is set to that signature while the
    step is still [Processing]; the timer then moves the step to [Error]
    (the scripted failure), "Get a Refund" to [RefundFunnel] and "Finish
    Demo" to [Done], and through all of them, and after any further
    events, [txSig] is that signature. *)
Theorem C1_confirmed_payment_shows_error
    (addr : PublicKey) (w : World) (bh : string) (h : N) (sig : JsVal)
    (s : string) (between : list Event) (ms : N) (later : list Event) :
  reachable addr w ->
  flows w = [AwaitSignAndSend bh h] ->
  signature_of sig = JString s ->
  forallb (fun e => negb (addresses_flow e)) between = true ->
  (1200 <= ms)%N ->
  let confirmed :=
    final addr w (FlowSettled 0 (SignatureResolved sig)
                  :: between ++ [FlowSettled 0 ConfirmResolved]) in
  let failed := final addr confirmed [Elapse ms] in
  let refund := final addr failed [ClickGetRefund] in
  let finished := final addr refund [ClickFinishDemo] in
  (step (ui confirmed) = Processing /\ txSig (ui confirmed) = JString s
   /\ txSig (ui confirmed) <> JNull)
  /\ (step (ui failed) = Error /\ txSig (ui failed) = JString s)
  /\ (step (ui refund) = RefundFunnel /\ txSig (ui refund) = JString s)
  /\ (step (ui finished) = Done /\ txSig (ui finished) = JString s)
  /\ txSig (ui (final addr confirmed later)) = JString s.
Proof.
  intros Hr Hf Hsig Hbetween Hms confirmed failed refund finished.
  destruct (reachable_cases addr w Hr)
    as [(Hf0 & _)|(k & Hk & Hb & Hs & _)]; [congruence|].
  assert (Hrc : reachable addr confirmed) by (apply final_reachable, Hr).
  (* the wallet answers *)
  destruct (signature_resolved addr w bh h sig Hf) as [Hc1 _].
  rewrite Hsig in Hc1. apply core_eq in Hc1 as (Hf1 & Hb1 & _ & Hs1).
  (* anything else happens *)
  pose proof (waiting_final addr _ _ between Hf1 (eq_trans Hb1 Hb)
                (eq_trans Hs1 Hs) eq_refl Hbetween) as Hc2.
  apply core_eq in Hc2 as (Hf2 & Hb2 & _ & Hs2).
  rewrite Hf1 in Hf2.
  (* the ledger confirms *)
  destruct (confirm_resolved addr _ _ _ _ Hf2) as [Hc3 _].
  rewrite <- final_one, <- final_app, <- final_cons in Hc3.
  fold confirmed in Hc3.
  apply core_eq in Hc3 as (Hf3 & Hb3 & Htx3 & Hs3).
  (* the timer fires *)
  destruct (delay_elapsed addr confirmed 1200 ms Hf3 Hms) as [Hc4 _].
  rewrite <- final_one in Hc4. fold failed in Hc4.
  apply core_eq in Hc4 as (Hf4 & Hb4 & Htx4 & Hs4).
  pose proof (refund_requested addr failed Hs4) as Hc5.
  rewrite <- final_one in Hc5. fold refund in Hc5.
  apply core_eq in Hc5 as (Hf5 & Hb5 & Htx5 & Hs5).
  pose proof (demo_finished addr refund Hs5) as Hc6.
  rewrite <- final_one in Hc6. fold finished in Hc6.
  apply core_eq in Hc6 as (Hf6 & Hb6 & Htx6 & Hs6).
  repeat split; try congruence.
  rewrite txSig_stable_final; congruence.
Qed.

(** C1, on the sample page: the wallet answers [{signature: "SIG1"}]. *)
Lemma C1_witness :
  let confirmed :=
    final demo_address page_awaiting_signature
      (FlowSettled 0 (SignatureResolved (JObject (Some "SIG1")))
       :: [ClickToggleDetails] ++ [FlowSettled 0 ConfirmResolved]) in
  txSig (ui (final demo_address confirmed [Elapse 1200])) = JString "SIG1"
  /\ step (ui (final demo_address confirmed [Elapse 1200])) = Error.
Proof.
  pose proof (C1_confirmed_payment_shows_error demo_address
                page_awaiting_signature "R1" 100 (JObject (Some "SIG1"))
                "SIG1" [ClickToggleDetails] 1200 []) as H.
  cbv zeta in H.
  destruct H as (_ & (Hs & Htx) & _).
  - repeat (apply final_reachable); constructor.
  - reflexivity.
  - reflexivity.
  - reflexivity.
  - discriminate.
  - split; [exact Htx|exact Hs].
Defined.

(** C10.  [txSig] is written only by a resolved confirmation (line 99):
    on a reachable page whose [txSig] has left [null] no sequence of events
    changes it (the step is then [Processing] or past it, never the form
    again); a rejection at any await and the not-connected exit leave it,
    and with it the explorer link that the form shows, as they were. *)
Theorem C10_failure_keeps_txSig
    (addr : PublicKey) (w : World) (es : list Event) :
  reachable addr w -> txSig (ui w) <> JNull ->
  txSig (ui (final addr w es)) = txSig (ui w)
  /\ (step (ui (final addr w es)) = Processing
      \/ after_payment (step (ui (final addr w es))) = true)
  /\ (forall (w0 : World) (e : Event),
         txSig (ui (fst (dispatch addr w0 e))) <> txSig (ui w0) ->
         exists i sg bh h,
           e = FlowSettled i ConfirmResolved
           /\ nth_error (flows w0) i = Some (AwaitConfirm sg bh h)
           /\ txSig (ui (fst (dispatch addr w0 e))) = sg)
  /\ (forall (w0 : World) (i : nat) (e : Thrown),
         let w1 := fst (dispatch addr w0 (FlowSettled i (Rejected e))) in
         txSig (ui w1) = txSig (ui w0)
         /\ explorerTxUrl (ui w1) = explorerTxUrl (ui w0))
  /\ (forall w0 : World,
         current_publicKey (solana w0) = None ->
         txSig (ui (fst (dispatch addr w0 ClickCreateToken)))
         = txSig (ui w0)).
Proof.
  intros Hr Hn. split; [apply txSig_stable_final; assumption|].
  split.
  { apply (paid_step addr); [apply final_reachable, Hr|].
    rewrite txSig_stable_final; assumption. }
  split; [|split].
  - intros w0 e H. rewrite txSig_dispatch in H |- *.
    destruct e; try contradiction. destruct r; try contradiction.
    destruct (nth_error (flows w0) i) as [[]|] eqn:Hi; try contradiction.
    exists i, signature, blockhash, lastValidBlockHeight. auto.
  - intros w0 i e w1.
    assert (H : txSig (ui w1) = txSig (ui w0))
      by (unfold w1; rewrite txSig_dispatch; reflexivity).
    split; [exact H|]. unfold explorerTxUrl. rewrite H. reflexivity.
  - intros w0 _. rewrite txSig_dispatch. reflexivity.
Qed.

(** C10, on the sample page after its payment was confirmed. *)
Lemma C10_witness :
  txSig (ui (final demo_address page_after_payment
               [Elapse 1200; ClickGetRefund; ClickFinishDemo;
                ClickCreateToken]))
  = JString "SIG1".
Proof.
  destruct (C10_failure_keeps_txSig demo_address page_after_payment
              [Elapse 1200; ClickGetRefund; ClickFinishDemo;
               ClickCreateToken]) as [H _].
  - repeat (apply final_reachable); constructor.
  - discriminate.
  - exact H.
Defined.

(** C3.  On every reachable page at most one flow is suspended; [busy] is
    set exactly while one is, and the step is then [Processing]; while
    [busy] is set a click on "Create Token" does nothing; a click that does
    start the pipeline sets [busy] first; and whenever a flow ends, by
    success, by a handled failure or by an exception leaving the handler,
    [setBusy(false)] has run and [busy] is clear. *)
Theorem C3_single_flight (addr : PublicKey) (w : World) (e : Event) :
  reachable addr w ->
  (length (flows w) <= 1)%nat
  /\ (busy (ui w) = true <-> flows w <> [])
  /\ (flows w <> [] -> step (ui w) = Processing)
  /\ (busy (ui w) = true -> dispatch addr w ClickCreateToken = (w, []))
  /\ (createToken_enabled (ui w) = true ->
      exists rest,
        snd (dispatch addr w ClickCreateToken) = SetBusy true :: rest)
  /\ (createToken_enabled (ui w) = true ->
      flows (fst (dispatch addr w ClickCreateToken)) = [] ->
      In (SetBusy false) (snd (dispatch addr w ClickCreateToken)))
  /\ ((length (flows (fst (dispatch addr w e))) < length (flows w))%nat ->
      busy (ui (fst (dispatch addr w e))) = false
      /\ In (SetBusy false) (snd (dispatch addr w e))).
Proof.
  intros Hr.
  pose proof (reachable_cases addr w Hr) as Hw.
  destruct w as [[wa pk cn b tx st sd sr] sol fl cs]; cbn in Hw.
  cbn [flows ui busy step].
  refine (conj _ (conj _ (conj _ (conj _ (conj _ (conj _ _)))))).
  - destruct Hw as [(-> & _)|(k & -> & _)]; cbn; lia.
  - destruct Hw as [(-> & -> & _)|(k & -> & -> & _)]; split; congruence.
  - destruct Hw as [(-> & _)|(k & _ & _ & -> & _)]; congruence.
  - intros ->. handlers. destruct st, (truthy_opt pk); reflexivity.
  - intros He. cbv [dispatch ui]. rewrite He.
    destruct (current_publicKey sol) eqn:Hk; handlers; rewrite Hk; eauto.
  - intros He. cbv [dispatch ui]. rewrite He.
    destruct (current_publicKey sol) eqn:Hk; handlers; rewrite Hk.
    + destruct fl; discriminate.
    + intros _. cbn. auto 10.
  - destruct Hw as [(-> & _)|(k & -> & -> & -> & _)].
    + cbn [length]. lia.
    + destruct (inert e) eqn:Hi.
      { pose proof (inert_core addr
                      (mkWorld (mkUI wa pk cn true tx Processing sd sr) sol
                         [k] cs) e Hi) as Hc.
        apply core_eq in Hc as (Hf & _). cbn in Hf. rewrite Hf.
        cbn. lia. }
      destruct e; try discriminate Hi; try (handlers; cbn; lia).
      * destruct i as [|[|i]]; try (handlers; cbn; lia).
        destruct k, r as [bh h|sg| |[|m]]; handlers; cbn; try lia;
          intros _; auto 10.
      * destruct k as [f|bh h|sg bh h|rem]; try (handlers; cbn; lia).
        cbv [dispatch elapse flows ui].
        destruct (rem <=? ms)%N; handlers; cbn; try lia. auto.
Qed.

(** C3, on the sample page while its payment awaits the wallet. *)
Lemma C3_witness :
  dispatch demo_address page_awaiting_signature ClickCreateToken
  = (page_awaiting_signature, [])
  /\ length (flows page_awaiting_signature) = 1%nat.
Proof.
  destruct (C3_single_flight demo_address page_awaiting_signature
              ClickCreateToken) as (_ & _ & _ & H & _).
  - repeat (apply final_reachable); constructor.
  - split; [apply H|]; reflexivity.
Defined.

(** C2.  While the component holds no public key, a click on "Create
    Token" changes nothing and calls nothing: the button is disabled.  And
    whenever the wallet handle has no public key, the click makes no call to
    the ledger or the wallet, suspends no flow, and a page on [Form] is on
    [Form] afterwards. *)
Theorem C2_no_wallet_no_pipeline (addr : PublicKey) (w : World) :
  truthy_opt (publicKey (ui w)) = false ->
  dispatch addr w ClickCreateToken = (w, [])
  /\ (forall w0 : World,
         current_publicKey (solana w0) = None ->
         let after := dispatch addr w0 ClickCreateToken in
         (forall a, In a (snd after) -> pipeline_call a = false)
         /\ flows (fst after) = flows w0
         /\ (step (ui w0) = Form -> step (ui (fst after)) = Form)).
Proof.
  intros Hpk. split.
  - destruct w as [[wa pk cn b tx st sd sr] sol fl cs]; cbn in Hpk.
    handlers. rewrite Hpk. destruct st; reflexivity.
  - intros [[wa pk cn b tx st sd sr] sol fl cs] Hk; cbn in Hk.
    cbv zeta.
    destruct (createToken_enabled (mkUI wa pk cn b tx st sd sr)) eqn:He;
      cbv [dispatch ui solana]; rewrite He.
    + handlers. rewrite Hk. cbn. repeat split; auto.
      intros a Ha. repeat (destruct Ha as [<-|Ha]; [reflexivity|]).
      destruct Ha.
    + cbn. repeat split; auto. intros a [].
Qed.

(** C2, on the sample page visited without a wallet. *)
Lemma C2_witness :
  run demo_address page_without_wallet [ClickCreateToken]
  = (page_without_wallet, [(ClickCreateToken, [])])
  /\ step (ui page_without_wallet) = Form.
Proof.
  destruct (C2_no_wallet_no_pipeline demo_address page_without_wallet)
    as [H _].
  - reflexivity.
  - cbn [run]. rewrite H. split; reflexivity.
Defined.

(** C9.  [simulateScamFlow] sets [busy] and then the step to [Processing]
    before it looks at the wallet; a click that finds the wallet handle
    without a public key therefore passes through [Processing], throws,
    and is put back on [Form] by the catch block, ending on the page it
    started from. *)
Theorem C9_processing_before_wallet_check (addr : PublicKey) (w : World) :
  createToken_enabled (ui w) = true ->
  (exists rest,
      snd (dispatch addr w ClickCreateToken)
      = SetBusy true :: SetStep Processing :: rest)
  /\ (current_publicKey (solana w) = None ->
      dispatch addr w ClickCreateToken
      = (w, [SetBusy true; SetStep Processing;
             ConsoleError (Error_new "Wallet not connected.");
             Alert "Wallet not connected."; SetStep Form; SetBusy false]))
  /\ (forall (sol : option Provider) (s : UIState),
         exists rest,
           snd (simulateScamFlow_try (simulateScamFlow_entry sol) s)
           = SetBusy true :: SetStep Processing :: rest).
Proof.
  intros He.
  assert (Hall : forall (sol : option Provider) (s : UIState),
             exists rest,
               snd (simulateScamFlow_try (simulateScamFlow_entry sol) s)
               = SetBusy true :: SetStep Processing :: rest).
  { intros sol s. destruct (current_publicKey sol) eqn:Hk; handlers;
      rewrite Hk; eauto. }
  refine (conj _ (conj _ Hall)).
  - cbv [dispatch]. rewrite He.
    destruct (Hall (solana w) (ui w)) as [rest Hrest].
    destruct (simulateScamFlow_try (simulateScamFlow_entry (solana w)) (ui w))
      as [[c s] t]. cbn in *. subst t. cbn [app]. eauto.
  - intros Hk.
    destruct w as [[wa pk cn b tx st sd sr] sol fl cs]; cbn in Hk, He.
    cbv [dispatch ui solana]. rewrite He.
    unfold createToken_enabled in He. cbn in He.
    destruct st; try discriminate He.
    destruct b; [rewrite orb_true_r in He; discriminate He|].
    handlers. rewrite Hk. reflexivity.
Qed.

(** C9, on the sample form after the wallet dropped its account. *)
Lemma C9_witness :
  history demo_address page_wallet_gone [ClickCreateToken]
  = [(ClickCreateToken,
      [SetBusy true; SetStep Processing;
       ConsoleError (Error_new "Wallet not connected.");
       Alert "Wallet not connected."; SetStep Form; SetBusy false])]
  /\ step (ui (final demo_address page_wallet_gone [ClickCreateToken])) = Form.
Proof.
  destruct (C9_processing_before_wallet_check demo_address page_wallet_gone)
    as (_ & H & _).
  - reflexivity.
  - specialize (H eq_refl). unfold history, final. cbn [run].
    rewrite H. split; reflexivity.
Defined.

(** C5 (what fails).  Two runs of the sample page in which a failure is
    neither caught nor shown.  A ledger call that has not answered after a
    day is no failure for the component: nothing is logged or shown and
    the step is still [Processing].  A rejection whose reason is [null] or
    [undefined] makes the catch block itself throw: no alert, the step is
    left on [Processing], and the promise of the handler is rejected. *)
Lemma C5_failure_not_surfaced :
  run demo_address page_awaiting_blockhash [Elapse one_day]
  = (page_awaiting_blockhash, [(Elapse one_day, [])])
  /\ step (ui page_awaiting_blockhash) = Processing
  /\ busy (ui page_awaiting_blockhash) = true
  /\ history demo_address page_awaiting_signature
       [FlowSettled 0 (Rejected Nullish)]
     = [(FlowSettled 0 (Rejected Nullish),
         [ConsoleError Nullish; SetBusy false;
          UnhandledRejection TypeError_read_message])]
  /\ step (ui (final demo_address page_awaiting_signature
                 [FlowSettled 0 (Rejected Nullish)])) = Processing.
Proof. repeat split. Qed.

(** C5 (amended).  While a flow waits at one of its three awaited calls
    the step is [Processing], and stays so until that call settles.  When
    the call is rejected with an error value, the catch block logs it,
    alerts its message (or "Transaction failed" when it has none), puts
    the step back on [Form], and [finally] releases [busy]: the flow is
    over, nothing is left unhandled, and "Create Token" is enabled again
    for a connected user. *)
Theorem C5_rejection_caught_and_surfaced
    (addr : PublicKey) (w : World) (k : FlowAwait) (m : option string)
    (es : list Event) :
  reachable addr w -> flows w = [k] -> is_delay k = false ->
  forallb (fun e => negb (addresses_flow e)) es = true ->
  let rejected := dispatch addr w (FlowSettled 0 (Rejected (ErrorValue m))) in
  step (ui w) = Processing
  /\ core (final addr w es) = core w
  /\ snd rejected
     = [ConsoleError (ErrorValue m); Alert (or_string m "Transaction failed");
        SetStep Form; SetBusy false]
  /\ flows (fst rejected) = []
  /\ step (ui (fst rejected)) = Form
  /\ busy (ui (fst rejected)) = false
  /\ createToken_enabled (ui (fst rejected)) = truthy_opt (publicKey (ui w)).
Proof.
  intros Hr Hf Hk Hes rejected.
  destruct (reachable_cases addr w Hr)
    as [(Hf0 & _)|(k' & _ & Hb & Hs & _)]; [congruence|].
  destruct (rejection_handled addr w k m Hf Hk)
    as (Ht & Hf' & Hs' & Hb' & _ & Hpk').
  fold rejected in Ht, Hf', Hs', Hb', Hpk'.
  repeat split; auto.
  - apply (waiting_final addr w k); assumption.
  - unfold createToken_enabled. rewrite Hs', Hb', Hpk'. cbn.
    destruct (truthy_opt (publicKey (ui w))); reflexivity.
Qed.

(** C5, on the sample page: the user declines in the wallet. *)
Lemma C5_witness :
  history demo_address page_awaiting_signature
    [FlowSettled 0 (Rejected (Error_new "User rejected the request."))]
  = [(FlowSettled 0 (Rejected (Error_new "User rejected the request.")),
      [ConsoleError (Error_new "User rejected the request.");
       Alert "User rejected the request."; SetStep Form; SetBusy false])].
Proof.
  destruct (C5_rejection_caught_and_surfaced demo_address
              page_awaiting_signature (AwaitSignAndSend "R1" 100)
              (Some "User rejected the request.") [])
    as (_ & _ & H & _).
  - repeat (apply final_reachable); constructor.
  - reflexivity.
  - reflexivity.
  - reflexivity.
  - unfold history, Error_new. cbn [run].
    destruct (dispatch demo_address page_awaiting_signature _) as [w1 t].
    cbn in H |- *. rewrite H. reflexivity.
Defined.

(** C6 (what fails).  The sample page, suspended at [confirmTransaction]:
    after a day without an answer nothing has happened.  No outcome, no
    message, the step is still [Processing] and [busy] is still set. *)
Lemma C6_wait_has_no_bound :
  flows page_awaiting_confirmation = [AwaitConfirm (JString "SIG1") "R1" 100]
  /\ run demo_address page_awaiting_confirmation [Elapse one_day]
     = (page_awaiting_confirmation, [(Elapse one_day, [])])
  /\ step (ui page_awaiting_confirmation) = Processing
  /\ busy (ui page_awaiting_confirmation) = true.
Proof. repeat split. Qed.

(** C6 (amended).  The component puts no bound on the confirmation wait:
    while [confirmTransaction] has not settled, no amount of elapsed time
    and no other event moves the step off [Processing] or releases
    [busy].  Only when the ledger client itself rejects the wait with an
    error value does the step go back to [Form], with that error's message
    (or "Transaction failed") in the alert. *)
Theorem C6_confirmation_wait
    (addr : PublicKey) (w : World) (sg : JsVal) (bh : string) (h : N)
    (es : list Event) :
  reachable addr w -> flows w = [AwaitConfirm sg bh h] ->
  forallb (fun e => negb (addresses_flow e)) es = true ->
  (forall ms : N, dispatch addr w (Elapse ms) = (w, []))
  /\ (step (ui (final addr w es)) = Processing
      /\ busy (ui (final addr w es)) = true
      /\ flows (final addr w es) = [AwaitConfirm sg bh h])
  /\ (forall m : option string,
         let rejected :=
           dispatch addr w (FlowSettled 0 (Rejected (ErrorValue m))) in
         snd rejected
         = [ConsoleError (ErrorValue m);
            Alert (or_string m "Transaction failed");
            SetStep Form; SetBusy false]
         /\ step (ui (fst rejected)) = Form
         /\ busy (ui (fst rejected)) = false).
Proof.
  intros Hr Hf Hes.
  destruct (reachable_cases addr w Hr)
    as [(Hf0 & _)|(k' & _ & Hb & Hs & _)]; [congruence|].
  refine (conj _ (conj _ _)).
  - intros ms. destruct w as [s sol fl cs]; cbn in Hf. subst fl. reflexivity.
  - pose proof (waiting_final addr w _ es Hf Hb Hs eq_refl Hes) as Hc.
    apply core_eq in Hc as (Hf' & Hb' & _ & Hs'). repeat split; congruence.
  - intros m rejected.
    destruct (rejection_handled addr w _ m Hf eq_refl)
      as (Ht & _ & Hs' & Hb' & _). auto.
Qed.

(** C6, on the sample page: an hour passes, the user opens the details. *)
Lemma C6_witness :
  step (ui (final demo_address page_awaiting_confirmation
              [Elapse 3600000; ClickToggleDetails])) = Processing.
Proof.
  destruct (C6_confirmation_wait demo_address page_awaiting_confirmation
              (JString "SIG1") "R1" 100 [Elapse 3600000; ClickToggleDetails])
    as (_ & (H & _) & _).
  - repeat (apply final_reachable); constructor.
  - reflexivity.
  - reflexivity.
  - exact H.
Defined.

Lemma strip_prefix_app (p s : string) :
  strip_prefix p (p ++ s)%string = Some s.
Proof.
  induction p as [|a p IH]; cbn; [reflexivity|].
  rewrite Ascii.eqb_refl. exact IH.
Qed.

Lemma base58_digit_not (c sep : ascii) :
  base58_digit sep = None -> base58_digit c <> None ->
  Ascii.eqb c sep = false.
Proof.
  intros Hsep Hc. destruct (Ascii.eqb c sep) eqn:E; [|reflexivity].
  apply Ascii.eqb_eq in E. subst c. contradiction.
Qed.

(** A base-58 string holds none of the URL delimiters. *)
Lemma split_at_base58 (sep : ascii) (s rest : string) :
  base58_digit sep = None -> is_base58 s = true ->
  split_at sep (s ++ String sep rest)%string = (s, Some rest).
Proof.
  intros Hsep. induction s as [|c s IH];
    cbn [is_base58 split_at append]; intros Hs.
  - rewrite Ascii.eqb_refl. reflexivity.
  - destruct (base58_digit c) eqn:Hc; [|discriminate Hs].
    rewrite (base58_digit_not c sep Hsep) by congruence.
    rewrite (IH Hs). reflexivity.
Qed.

Lemma split_at_app_absent (sep : ascii) (s t : string) :
  base58_digit sep = None -> is_base58 s = true ->
  split_at sep (s ++ t)%string
  = (s ++ fst (split_at sep t), snd (split_at sep t))%string.
Proof.
  intros Hsep. induction s as [|c s IH];
    cbn [is_base58 split_at append]; intros Hs.
  - destruct (split_at sep t); reflexivity.
  - destruct (base58_digit c) eqn:Hc; [|discriminate Hs].
    rewrite (base58_digit_not c sep Hsep) by congruence.
    rewrite (IH Hs). reflexivity.
Qed.
Lemma parse_link_base58 (s : string) :
  is_base58 s = true ->
  parse_explorer_link
    ("https://explorer.solana.com/tx/" ++ (s ++ "?cluster=devnet"))%string
  = Some (s, "devnet").
Proof.
  intros Hs. unfold parse_explorer_link.
  assert (Hfrag :
            fst (split_at "#" ("https://explorer.solana.com/tx/"
                               ++ (s ++ "?cluster=devnet"))%string)
            = ("https://explorer.solana.com/tx/"
               ++ (s ++ "?cluster=devnet"))%string).
  { cbn [append split_at Ascii.eqb Bool.eqb fst].
    rewrite (split_at_app_absent "#" s "?cluster=devnet" eq_refl Hs).
    reflexivity. }
  rewrite Hfrag.
  change (explorer_base ++ "/tx/")%string
    with "https://explorer.solana.com/tx/".
  rewrite strip_prefix_app.
  change (s ++ "?cluster=devnet")%string
    with (s ++ String "?" "cluster=devnet")%string.
  rewrite (split_at_base58 "?" s _ eq_refl Hs).
  reflexivity.
Qed.

(** C8.  For a signature [s], the explorer link of any component state
    whose [txSig] is [s] is
    [<explorer-base>/tx/<s>?cluster=<test-cluster>]: it depends on [txSig]
    alone, two states with the same [txSig] have the same link, and
    reading the link back gives [s] and the test cluster. *)
Theorem C8_explorer_link_round_trip (s : string) (u1 u2 : UIState) :
  is_signature s = true ->
  txSig u1 = JString s -> txSig u2 = JString s ->
  explorerTxUrl u1
  = Some (explorer_base ++ "/tx/" ++ s ++ "?cluster=" ++ test_cluster)%string
  /\ explorerTxUrl u2 = explorerTxUrl u1
  /\ (forall link, explorerTxUrl u1 = Some link ->
                   parse_explorer_link link = Some (s, test_cluster)).
Proof.
  unfold is_signature. intros Hs H1 H2.
  apply andb_true_iff in Hs as [Hne Hb58].
  assert (Hlink : explorerTxUrl u1
                  = Some (explorer_base ++ "/tx/" ++ s ++ "?cluster="
                          ++ test_cluster)%string).
  { unfold explorerTxUrl. rewrite H1. cbn [truthy to_template].
    rewrite Hne. reflexivity. }
  refine (conj Hlink (conj _ _)).
  - unfold explorerTxUrl. rewrite H1, H2. reflexivity.
  - intros link Hl.
    assert (Hl' : link
                  = ("https://explorer.solana.com/tx/"
                     ++ (s ++ "?cluster=devnet"))%string)
      by (rewrite Hlink in Hl; injection Hl as <-; reflexivity).
    rewrite Hl'. exact (parse_link_base58 s Hb58).
Qed.

(** C8, on a devnet signature and two unrelated component states. *)
Lemma C8_witness :
  parse_explorer_link
    ("https://explorer.solana.com/tx/" ++ sample_signature
     ++ "?cluster=devnet")%string
  = Some (sample_signature, "devnet").
Proof.
  destruct (C8_explorer_link_round_trip sample_signature
              (state_with_txSig (JString sample_signature))
              (other_state_with_txSig (JString sample_signature)))
    as (_ & _ & H).
  - reflexivity.
  - reflexivity.
  - reflexivity.
  - apply H. reflexivity.
Defined.

Section Submission.
Variable addr : PublicKey.

Lemma elapse_actions (ms : N) (fl : list FlowAwait) (s : UIState)
    (a : Action) :
  In a (snd (elapse ms fl s)) -> a = SetStep Error \/ a = SetBusy false.
Proof.
  revert s. induction fl as [|k fl IH]; intros s; [intros []|].
  destruct k; cbn [elapse];
    try (specialize (IH s); destruct (elapse ms fl s) as [[fl' s'] t'];
         exact IH).
  destruct (remaining <=? ms)%N.
  - destruct s as [wa pk cn b tx st sd sr].
    cbv [simulateScamFlow_try simulateScamFlow_after_delay
           simulateScamFlow_finally try_catch_finally bind ret setStep
           setBusy walletAvailable publicKey connecting busy txSig step
           showDetails showRedFlags promise_actions app].
    specialize (IH (mkUI wa pk cn false tx Error sd sr)).
    destruct (elapse ms fl _) as [[fl' s'] t']. cbn in IH |- *.
    intros [<-|[<-|H]]; auto.
  - specialize (IH s). destruct (elapse ms fl s) as [[fl' s'] t']. exact IH.
Qed.

Ltac absent H :=
  solve [cbn in H; repeat (destruct H as [H|H]; [discriminate H|]);
         destruct H].

(** The only place a transaction is handed to the wallet: line 96, right
    after [getLatestBlockhash] resolved, with that blockhash. *)
Lemma submission_origin (w : World) (e : Event) (tx : Transaction) :
  In (SignAndSendTransaction tx) (snd (dispatch addr w e)) ->
  exists i bh h,
    e = FlowSettled i (BlockhashResolved bh h)
    /\ nth_error (flows w) i = Some (AwaitBlockhash (feePayer tx))
    /\ tx = mkTransaction bh (feePayer tx)
              [mkTransfer (feePayer tx) addr 1000000].
Proof.
  destruct w as [[wa pk cn b tx0 st sd sr] sol fl cs].
  destruct e; intros H.
  - destruct st; absent H.
  - cbv [dispatch ui solana] in H.
    destruct (createToken_enabled _); [|absent H].
    destruct (current_publicKey sol) eqn:Hk; revert H; handlers;
      rewrite Hk; intros H; absent H.
  - destruct st; absent H.
  - destruct st; absent H.
  - cbv [dispatch ui solana] in H.
    destruct (connectWallet_enabled _); [|absent H].
    destruct sol; absent H.
  - absent H.
  - absent H.
  - destruct sr; absent H.
  - absent H.
  - cbv [dispatch flows ui] in H.
    destruct (nth_error fl i) as [k|] eqn:Hi; [|absent H].
    destruct k, r as [bh h|sg| |[|m]]; try absent H.
    cbn in H. destruct H as [H|[]]. injection H as <-.
    exists i, bh, h. auto.
  - cbv [dispatch connects ui] in H.
    destruct (nth_error cs i) as [[]|]; [|absent H].
    destruct r as [k|[|m]]; absent H.
  - cbv [dispatch flows ui] in H.
    destruct (elapse ms fl _) as [[fl' s'] t'] eqn:E. cbn in H.
    pose proof (elapse_actions ms fl (mkUI wa pk cn b tx0 st sd sr)
                  (SignAndSendTransaction tx)) as Ha.
    rewrite E in Ha. destruct (Ha H); discriminate.
Qed.

(** The flow that waits for the blockhash carries the wallet's key of
    the moment of the click. *)
Lemma click_captures_wallet_key (w : World) (k : PublicKey) :
  createToken_enabled (ui w) = true ->
  current_publicKey (solana w) = Some k ->
  flows (fst (dispatch addr w ClickCreateToken))
  = flows w ++ [AwaitBlockhash k]
  /\ snd (dispatch addr w ClickCreateToken)
     = [SetBusy true; SetStep Processing; GetLatestBlockhash "confirmed"].
Proof.
  destruct w as [s sol fl cs]; cbn [ui solana flows].
  intros He Hk. cbv [dispatch ui solana]. rewrite He. handlers.
  rewrite Hk. split; reflexivity.
Qed.
End Submission.

(** C7.  With the module loaded, every transaction the page hands to the
    wallet holds exactly one transfer, of 1,000,000 lamports, from its fee
    payer to [DEMO_SCAMMER_ADDRESS]; the fee payer is the key the wallet
    held when "Create Token" was clicked; and [DEMO_SCAMMER_ADDRESS] is
    what [new PublicKey] makes of the environment string when that is set
    and non-empty, of the built-in default otherwise.  When [new PublicKey]
    refuses that string the module does not load. *)
Theorem C7_fixed_transfer
    (PublicKey_new : string -> option PublicKey) (ENV_ADDR : option string)
    (addr : PublicKey) (w : World) (e : Event) (tx : Transaction) :
  load_DEMO_SCAMMER_ADDRESS PublicKey_new ENV_ADDR = Some addr ->
  In (SignAndSendTransaction tx) (snd (dispatch addr w e)) ->
  instructions tx = [mkTransfer (feePayer tx) addr 1000000]
  /\ (exists i bh h,
         e = FlowSettled i (BlockhashResolved bh h)
         /\ nth_error (flows w) i = Some (AwaitBlockhash (feePayer tx))
         /\ recentBlockhash tx = bh)
  /\ (forall (w0 : World) (k : PublicKey),
         createToken_enabled (ui w0) = true ->
         current_publicKey (solana w0) = Some k ->
         flows (fst (dispatch addr w0 ClickCreateToken))
         = flows w0 ++ [AwaitBlockhash k])
  /\ PublicKey_new
       match ENV_ADDR with
       | Some (String c rest) => String c rest
       | _ => DEFAULT_ADDR
       end = Some addr
  /\ (forall env : option string,
         PublicKey_new (configured_address env) = None ->
         load_DEMO_SCAMMER_ADDRESS PublicKey_new env = None).
Proof.
  intros Hload Hin.
  destruct (submission_origin addr w e tx Hin) as (i & bh & h & He & Hi & Htx).
  refine (conj _ (conj _ (conj _ (conj _ _)))).
  - rewrite Htx. reflexivity.
  - exists i, bh, h. rewrite Htx at 2. auto.
  - intros w0 k H0 Hk. apply click_captures_wallet_key; assumption.
  - unfold load_DEMO_SCAMMER_ADDRESS, configured_address in Hload.
    destruct ENV_ADDR as [[|c rest]|]; exact Hload.
  - intros env H. exact H.
Qed.

(** C7, on the sample page, with the base-58 address check and no
    environment string. *)
Lemma C7_witness :
  instructions
    (mkTransaction "R1" payer [mkTransfer payer demo_address 1000000])
  = [mkTransfer payer demo_address 1000000]
  /\ base58_PublicKey_new DEFAULT_ADDR = Some demo_address.
Proof.
  destruct (C7_fixed_transfer base58_PublicKey_new None demo_address
              page_awaiting_blockhash
              (FlowSettled 0 (BlockhashResolved "R1" 100))
              (mkTransaction "R1" payer
                 [mkTransfer payer demo_address 1000000]))
    as (H1 & _ & _ & H2 & _).
  - vm_compute. reflexivity.
  - left. reflexivity.
  - split; [exact H1|exact H2].
Defined.

Section References.
Variable addr : PublicKey.

Lemma monitor_dispatch (w : World) (e : Event) (m : RefUse) :
  page_invariant w -> agrees w m ->
  exists m',
    monitor_actions e m (snd (dispatch addr w e)) = Some m'
    /\ agrees (fst (dispatch addr w e)) m'.
Proof.
  unfold page_invariant, agrees. intros H Ha.
  destruct w as [[wa pk cn b tx st sd sr] sol fl cs]; cbn in H, Ha.
  destruct fl as [|k [|k' fl]]; [| |contradiction].
  - (* nothing in flight *)
    destruct e.
    + destruct st; handlers; cbn; eauto.
    + cbv [dispatch ui solana flows connects].
      destruct (createToken_enabled _); [|cbn; eauto].
      destruct (current_publicKey sol) eqn:Hk; handlers; rewrite Hk; cbn;
        eauto.
    + destruct st; handlers; cbn; eauto.
    + destruct st; handlers; cbn; eauto.
    + cbv [dispatch ui solana flows connects].
      destruct (connectWallet_enabled _); [|cbn; eauto].
      destruct sol; handlers; cbn; eauto.
    + handlers; cbn; eauto.
    + handlers; cbn; eauto.
    + destruct sr; handlers; cbn; eauto.
    + handlers; cbn; eauto.
    + destruct i; handlers; cbn; eauto.
    + cbv [dispatch ui solana flows connects].
      destruct (nth_error cs i) as [[]|]; [|cbn; eauto].
      destruct r as [k|[|msg]]; handlers; cbn; eauto.
    + handlers; cbn; eauto.
  - (* one flow in flight *)
    destruct H as (Hb & Hs & _); subst b st.
    destruct e; try (handlers; cbn; eauto; fail).
    + cbv [dispatch ui solana flows connects].
      destruct (connectWallet_enabled _); [|cbn; eauto].
      destruct sol; handlers; cbn; eauto.
    + destruct sr; handlers; cbn; eauto.
    + destruct i as [|[|i]]; try (handlers; cbn; eauto; fail).
      destruct k, r as [bh h|sg| |[|msg]]; subst; handlers; cbn;
        rewrite ?String.eqb_refl, ?N.eqb_refl; cbn; eauto.
    + cbv [dispatch ui solana flows connects].
      destruct (nth_error cs i) as [[]|]; [|cbn; eauto].
      destruct r as [k0|[|msg]]; handlers; cbn; eauto.
    + destruct k as [f|bh h|sg bh h|rem]; try (handlers; cbn; eauto; fail).
      cbv [dispatch elapse flows ui].
      destruct (rem <=? ms)%N; handlers; cbn; eauto.
Qed.

Lemma monitor_history (w : World) (es : list Event) (m : RefUse) :
  page_invariant w -> agrees w m ->
  exists m', monitor m (history addr w es) = Some m'.
Proof.
  revert w m. induction es as [|e es IH]; intros w m Hw Ha; [cbn; eauto|].
  destruct (monitor_dispatch w e m Hw Ha) as (m1 & H1 & Ha1).
  pose proof (dispatch_invariant addr w e Hw) as Hw1.
  destruct (IH _ _ Hw1 Ha1) as (m2 & H2).
  unfold history in *. cbn [run].
  destruct (dispatch addr w e) as [w1 t]. cbn [fst snd] in *.
  destruct (run addr w1 es) as [w2 tr]. cbn [fst snd monitor] in *.
  rewrite H1. eauto.
Qed.
End References.

(** C4.  In every run of the page from its mount, each transaction handed
    to the wallet is built in the handler of the very event that delivers
    the answer of [getLatestBlockhash], carries that blockhash, and follows
    a [getLatestBlockhash] call made since the previous submission; each
    [confirmTransaction] is given the blockhash and validity height of the
    submission before it.  And every click that enters the pipeline with a
    connected wallet calls [getLatestBlockhash] anew. *)
Theorem C4_fresh_reference
    (addr : PublicKey) (p : option Provider) (es : list Event) :
  references_fresh (history addr (mount p) es) = true
  /\ (forall (w : World) (k : PublicKey),
         createToken_enabled (ui w) = true ->
         current_publicKey (solana w) = Some k ->
         snd (dispatch addr w ClickCreateToken)
         = [SetBusy true; SetStep Processing; GetLatestBlockhash "confirmed"])
  /\ (forall (w : World) (k : PublicKey) (bh : string) (h : N) (sig : JsVal),
         flows w = [AwaitBlockhash k] ->
         let submitted :=
           dispatch addr w (FlowSettled 0 (BlockhashResolved bh h)) in
         snd submitted
         = [SignAndSendTransaction
              (mkTransaction bh k [mkTransfer k addr 1000000])]
         /\ snd (dispatch addr (fst submitted)
                   (FlowSettled 0 (SignatureResolved sig)))
            = [ConfirmTransaction (signature_of sig) bh h "confirmed"]).
Proof.
  refine (conj _ (conj _ _)).
  - unfold references_fresh.
    destruct (monitor_history addr (mount p) es NoRequest) as (m & ->).
    + apply mount_invariant.
    + unfold agrees. destruct p as [[[] cb bp [] k]|]; exact I.
    + reflexivity.
  - intros w k He Hk. exact (proj2 (click_captures_wallet_key addr w k He Hk)).
  - intros w k bh h sig Hf submitted.
    destruct (blockhash_resolved addr w k bh h Hf) as (Hc & Ht).
    fold submitted in Hc, Ht. split; [exact Ht|].
    apply core_eq in Hc as (Hf' & _).
    apply (signature_resolved addr _ bh h sig Hf').
Qed.

(** * Worked examples *)

(** The built-in recipient passes the base-58 address check; a malformed
    environment string stops the module; an empty one falls back to the
    default. *)
Example default_address_well_formed :
  load_DEMO_SCAMMER_ADDRESS base58_PublicKey_new None = Some demo_address.
Proof. vm_compute. reflexivity. Qed.

Example malformed_address_stops_module :
  load_DEMO_SCAMMER_ADDRESS base58_PublicKey_new (Some "not-a-devnet-key")
  = None.
Proof. vm_compute. reflexivity. Qed.

Example empty_environment_string_falls_back :
  configured_address (Some "") = DEFAULT_ADDR.
Proof. reflexivity. Qed.

(** A declined payment followed by a confirmed one: two fetches, and the
    second transaction carries the second blockhash. *)
Example two_attempts_history :
  history demo_address (mount phantom_wallet) two_attempts
  = [(ClickStart, [SetStep Form]);
     (ClickCreateToken,
      [SetBusy true; SetStep Processing; GetLatestBlockhash "confirmed"]);
     (FlowSettled 0 (BlockhashResolved "R1" 100),
      [SignAndSendTransaction
         (mkTransaction "R1" payer [mkTransfer payer demo_address 1000000])]);
     (FlowSettled 0 (Rejected (Error_new "User rejected the request.")),
      [ConsoleError (Error_new "User rejected the request.");
       Alert "User rejected the request."; SetStep Form; SetBusy false]);
     (ClickCreateToken,
      [SetBusy true; SetStep Processing; GetLatestBlockhash "confirmed"]);
     (FlowSettled 0 (BlockhashResolved "R2" 105),
      [SignAndSendTransaction
         (mkTransaction "R2" payer [mkTransfer payer demo_address 1000000])]);
     (FlowSettled 0 (SignatureResolved (JObject (Some "SIG2"))),
      [ConfirmTransaction (JString "SIG2") "R2" 105 "confirmed"]);
     (FlowSettled 0 ConfirmResolved,
      [SetTxSig (JString "SIG2"); SetTimeout 1200]);
     (Elapse 1200, [SetStep Error; SetBusy false])].
Proof. reflexivity. Qed.

(** The monitor does refuse a run that submits twice on one reference. *)
Example reused_reference_refused :
  references_fresh reused_reference_run = false.
Proof. reflexivity. Qed.

(** No link without a signature; and a string with a URL delimiter in it,
    which no signature has, would not be read back. *)
Example no_link_without_signature :
  explorerTxUrl (state_with_txSig JNull) = None
  /\ explorerTxUrl (state_with_txSig (JString "")) = None.
Proof. split; reflexivity. Qed.

Example delimiter_is_not_read_back :
  is_signature "x?cluster=mainnet-beta" = false
  /\ parse_explorer_link
       "https://explorer.solana.com/tx/x?cluster=mainnet-beta?cluster=devnet"
     = Some ("x", "mainnet-beta?cluster=devnet").
Proof. split; reflexivity. Qed.

(** * Further properties of the page *)

Section Connection.
Variable addr : PublicKey.

Lemma mount_connect_invariant (p : option Provider) :
  connect_invariant (mount p).
Proof.
  unfold connect_invariant.
  destruct p as [[[] cb bp [] k]|]; handlers; split; auto; congruence.
Qed.

Lemma dispatch_connect_invariant (w : World) (e : Event) :
  page_invariant w -> connect_invariant w ->
  connect_invariant (fst (dispatch addr w e)).
Proof.
  unfold page_invariant, connect_invariant. intros H [Hc Hf].
  destruct w as [[wa pk cn b tx st sd sr] sol fl cs]; cbn in H, Hc, Hf.
  destruct cs as [|[] [|c cs]]; [| |contradiction];
    (destruct fl as [|k [|k' fl]]; [| |contradiction]).
  - (* nothing suspended *)
    clear Hf. destruct H as [Hb _]; subst b cn.
    destruct e; try (handlers; cbn; split; auto; congruence).
    + destruct st; handlers; split; auto; congruence.
    + destruct st; try (handlers; split; auto; congruence).
      destruct (truthy_opt pk) eqn:Hpk;
        [|handlers; rewrite Hpk; handlers; split; auto; congruence].
      destruct (current_publicKey sol) eqn:Hk; handlers; rewrite Hpk, Hk;
        handlers; split; auto; congruence.
    + destruct st; handlers; split; auto; congruence.
    + destruct st; handlers; split; auto; congruence.
    + destruct (truthy_opt pk) eqn:Hpk, sol; handlers;
        rewrite Hpk; handlers; split; auto; congruence.
    + destruct sr; handlers; split; auto; congruence.
    + destruct i; handlers; split; auto; congruence.
    + destruct i; handlers; split; auto; congruence.
  - (* a payment in flight: the component holds a key *)
    destruct H as (Hb & Hs & _); subst b st cn.
    assert (Hpk : truthy_opt pk = true) by (apply Hf; discriminate).
    destruct e; try (handlers; rewrite ?Hpk; handlers; split; auto; fail).
    + destruct sr; handlers; split; auto.
    + destruct i as [|[|i]]; try (handlers; split; auto; fail).
      destruct k, r as [bh h|sg| |[|m]]; handlers; split; auto; congruence.
    + destruct i; handlers; split; auto.
    + destruct k as [f|bh h|sg bh h|rem]; try (handlers; cbn; split; auto; fail).
      cbv [dispatch elapse flows ui].
      destruct (rem <=? ms)%N; handlers; split; auto; congruence.
  - (* a connection in flight: the component holds no key *)
    clear Hf. destruct H as [Hb _]. destruct Hc as [Hcn Hpk]. subst b cn.
    destruct e; try (handlers; rewrite ?Hpk; handlers; cbn; split; auto;
                     congruence).
    + destruct st; handlers; split; auto; congruence.
    + destruct st; handlers; rewrite ?Hpk; handlers; split; auto; congruence.
    + destruct st; handlers; split; auto; congruence.
    + destruct st; handlers; split; auto; congruence.
    + destruct sr; handlers; split; auto; congruence.
    + destruct i; handlers; split; auto; congruence.
    + destruct i as [|[|i]]; try (handlers; split; auto; congruence).
      destruct r as [k|[|m]]; handlers; split; auto; congruence.
  - (* both: excluded *)
    destruct Hc as [_ Hpk]. rewrite Hf in Hpk; discriminate.
Qed.

Lemma reachable_connect_invariant (w : World) :
  reachable addr w -> connect_invariant w.
Proof.
  induction 1 as [p|w e Hr IH].
  - apply mount_connect_invariant.
  - apply dispatch_connect_invariant; [apply (reachable_invariant addr), Hr|].
    exact IH.
Qed.
End Connection.

Section Frames.
Variable addr : PublicKey.

(** Elapsing time writes nothing but the step and [busy]. *)
Lemma elapse_frame (ms : N) (fl : list FlowAwait) (s : UIState) :
  let s' := snd (fst (elapse ms fl s)) in
  walletAvailable s' = walletAvailable s /\ publicKey s' = publicKey s
  /\ connecting s' = connecting s /\ showDetails s' = showDetails s
  /\ showRedFlags s' = showRedFlags s.
Proof.
  revert s. induction fl as [|k fl IH]; intros s; [cbn; auto 6|].
  destruct k; cbn [elapse];
    try (specialize (IH s); destruct (elapse ms fl s) as [[fl' s'] t'];
         exact IH).
  destruct (remaining <=? ms)%N.
  - destruct s as [wa pk cn b tx st sd sr].
    cbv [simulateScamFlow_try simulateScamFlow_after_delay
           simulateScamFlow_finally try_catch_finally bind ret setStep
           setBusy walletAvailable publicKey connecting busy txSig step
           showDetails showRedFlags promise_actions app].
    specialize (IH (mkUI wa pk cn false tx Error sd sr)).
    destruct (elapse ms fl _) as [[fl' s'] t']. exact IH.
  - specialize (IH s). destruct (elapse ms fl s) as [[fl' s'] t']. exact IH.
Qed.

(** The one write to [publicKey] after the mount: line 72, when
    [provider.connect()] has resolved. *)
Lemma publicKey_dispatch (w : World) (e : Event) :
  publicKey (ui (fst (dispatch addr w e)))
  = match e with
    | ConnectionSettled i (ConnectResolved res_publicKey) =>
        match nth_error (connects w) i with
        | Some _ => toBase58_or_null res_publicKey
        | None => publicKey (ui w)
        end
    | _ => publicKey (ui w)
    end.
Proof.
  destruct w as [[wa pk cn b tx st sd sr] sol fl cs].
  destruct e.
  - destruct st; reflexivity.
  - destruct st; try reflexivity.
    destruct (truthy_opt pk) eqn:Hpk, b, (current_publicKey sol) eqn:Hk;
      handlers; rewrite ?Hpk, ?Hk; reflexivity.
  - destruct st; reflexivity.
  - destruct st; reflexivity.
  - destruct (truthy_opt pk) eqn:Hpk, cn, sol; handlers; rewrite ?Hpk;
      reflexivity.
  - reflexivity.
  - reflexivity.
  - destruct sr; reflexivity.
  - reflexivity.
  - cbv [dispatch flows ui].
    destruct (nth_error fl i) as [k|]; [|reflexivity].
    destruct k, r as [bh h|sg| |[|m]]; reflexivity.
  - cbv [dispatch connects ui].
    destruct (nth_error cs i) as [[]|]; [|destruct r; reflexivity].
    destruct r as [k|[|m]]; reflexivity.
  - cbv [dispatch flows ui].
    destruct (elapse_frame ms fl (mkUI wa pk cn b tx st sd sr))
      as (_ & H & _).
    destruct (elapse ms fl _) as [[fl' s'] t']. exact H.
Qed.

(** Nothing writes [walletAvailable] after the mount. *)
Lemma walletAvailable_dispatch (w : World) (e : Event) :
  walletAvailable (ui (fst (dispatch addr w e))) = walletAvailable (ui w).
Proof.
  destruct w as [[wa pk cn b tx st sd sr] sol fl cs].
  destruct e.
  - destruct st; reflexivity.
  - destruct st; try reflexivity.
    destruct (truthy_opt pk) eqn:Hpk, b, (current_publicKey sol) eqn:Hk;
      handlers; rewrite ?Hpk, ?Hk; reflexivity.
  - destruct st; reflexivity.
  - destruct st; reflexivity.
  - destruct (truthy_opt pk) eqn:Hpk, cn, sol; handlers; rewrite ?Hpk;
      reflexivity.
  - reflexivity.
  - reflexivity.
  - destruct sr; reflexivity.
  - reflexivity.
  - cbv [dispatch flows ui].
    destruct (nth_error fl i) as [k|]; [|reflexivity].
    destruct k, r as [bh h|sg| |[|m]]; reflexivity.
  - cbv [dispatch connects ui].
    destruct (nth_error cs i) as [[]|]; [|reflexivity].
    destruct r as [k|[|m]]; reflexivity.
  - cbv [dispatch flows ui].
    destruct (elapse_frame ms fl (mkUI wa pk cn b tx st sd sr))
      as (H & _).
    destruct (elapse ms fl _) as [[fl' s'] t']. exact H.
Qed.

(** The shapes of a reachable page's suspended connection. *)
Lemma connection_cases (w : World) :
  reachable addr w ->
  (connects w = [] /\ connecting (ui w) = false)
  \/ (connects w = [AwaitConnect] /\ connecting (ui w) = true
      /\ truthy_opt (publicKey (ui w)) = false /\ flows w = []).
Proof.
  intros Hr. destruct (reachable_connect_invariant addr w Hr) as [Hc Hf].
  destruct (connects w) as [|[] [|c cs]]; [left; auto|right|contradiction].
  destruct Hc as [Hcn Hpk]. repeat split; auto.
  destruct (flows w); [reflexivity|].
  rewrite Hf in Hpk; [discriminate Hpk|discriminate].
Qed.
End Frames.

(** X1.  On every reachable page at most one [connectWallet] call is
    suspended and [connecting] is set exactly while one is; the header then
    shows the disabled button "Connecting…" and a click on it does
    nothing; and however [provider.connect()] settles, also with a reason
    that makes the catch block throw, [setConnecting(false)] runs. *)
Theorem X1_single_connection
    (addr : PublicKey) (w : World) (r : ConnectSettled) :
  reachable addr w ->
  (length (connects w) <= 1)%nat
  /\ (connecting (ui w) = true <-> connects w <> [])
  /\ (connecting (ui w) = true ->
      dispatch addr w ClickConnectWallet = (w, [])
      /\ render_header (ui w) = ConnectButton "Connecting…" true)
  /\ (connects w <> [] ->
      let settled := dispatch addr w (ConnectionSettled 0 r) in
      connects (fst settled) = []
      /\ connecting (ui (fst settled)) = false
      /\ In (SetConnecting false) (snd settled)).
Proof.
  intros Hr. pose proof (connection_cases addr w Hr) as Hc.
  destruct w as [[wa pk cn b tx st sd sr] sol fl cs]; cbn in Hc.
  cbn [connects ui connecting].
  refine (conj _ (conj _ (conj _ _))).
  - destruct Hc as [(-> & _)|(-> & _)]; cbn; lia.
  - destruct Hc as [(-> & ->)|(-> & -> & _)]; split; congruence.
  - intros ->. destruct Hc as [(_ & Hcn)|(_ & _ & Hpk & _)];
      [discriminate Hcn|].
    unfold render_header. handlers. rewrite Hpk. split; reflexivity.
  - destruct Hc as [(-> & _)|(-> & _)]; [congruence|]. intros _.
    destruct r as [k|[|m]]; handlers; cbn; auto 10.
Qed.

(** X1, on the sample page while Phantom's approval is pending. *)
Lemma X1_witness :
  dispatch demo_address page_connecting ClickConnectWallet
  = (page_connecting, [])
  /\ render_header (ui page_connecting) = ConnectButton "Connecting…" true.
Proof.
  destruct (X1_single_connection demo_address page_connecting
              (ConnectRejected Nullish)) as (_ & _ & H & _).
  - repeat (apply final_reachable); constructor.
  - apply H. reflexivity.
Defined.

(** X2.  A payment and a wallet connection are never suspended together:
    while a payment flow is in flight the component holds a key, no
    [connectWallet] call is pending, and no event changes the key or the
    header that shows it. *)
Theorem X2_payment_excludes_connection
    (addr : PublicKey) (w : World) (e : Event) :
  reachable addr w -> flows w <> [] ->
  connects w = []
  /\ truthy_opt (publicKey (ui w)) = true
  /\ publicKey (ui (fst (dispatch addr w e))) = publicKey (ui w)
  /\ render_header (ui (fst (dispatch addr w e))) = render_header (ui w).
Proof.
  intros Hr Hf.
  destruct (connection_cases addr w Hr) as [(Hc & _)|(_ & _ & _ & Hf0)];
    [|contradiction].
  destruct (reachable_connect_invariant addr w Hr) as [_ Hpk].
  specialize (Hpk Hf).
  assert (Hsame : publicKey (ui (fst (dispatch addr w e))) = publicKey (ui w)).
  { rewrite publicKey_dispatch. destruct e; try reflexivity.
    rewrite Hc. destruct r, i; reflexivity. }
  repeat split; auto.
  unfold render_header. rewrite Hsame, Hpk. reflexivity.
Qed.

(** X2, on the sample page while the wallet is asked to sign: a stray
    answer of [provider.connect()] changes nothing. *)
Lemma X2_witness :
  publicKey (ui (fst (dispatch demo_address page_awaiting_signature
                        (ConnectionSettled 0 (ConnectResolved None)))))
  = Some "4Nd1mYQzvgV8Vr3Z3nYb7pD6T8K3yJ8QbT9vX2aB5cDe".
Proof.
  destruct (X2_payment_excludes_connection demo_address
              page_awaiting_signature
              (ConnectionSettled 0 (ConnectResolved None)))
    as (_ & _ & H & _).
  - repeat (apply final_reachable); constructor.
  - discriminate.
  - rewrite H. reflexivity.
Defined.

(** X3.  When [provider.connect()] resolves with a key, the component
    stores its base-58 form and clears [connecting]; the header shows
    "Connected: <key>" instead of the button, a further connect click does
    nothing, the payment state is untouched, and on the form "Create
    Token" is now enabled.  When it resolves without a key the component
    holds none and the connect button is enabled again. *)
Theorem X3_connection_success
    (addr : PublicKey) (w : World) (k : PublicKey) :
  reachable addr w -> connects w = [AwaitConnect] ->
  truthy_string (toBase58 k) = true ->
  let connected :=
    dispatch addr w (ConnectionSettled 0 (ConnectResolved (Some k))) in
  let keyless :=
    dispatch addr w (ConnectionSettled 0 (ConnectResolved None)) in
  snd connected = [SetPublicKey (Some (toBase58 k)); SetConnecting false]
  /\ publicKey (ui (fst connected)) = Some (toBase58 k)
  /\ connects (fst connected) = []
  /\ render_header (ui (fst connected))
     = ConnectedAs ("Connected: " ++ toBase58 k)%string
  /\ dispatch addr (fst connected) ClickConnectWallet = (fst connected, [])
  /\ core (fst connected) = core w
  /\ (step (ui w) = Form ->
      render_createToken (ui (fst connected))
      = Some (mkButton "Create Token" false)
      /\ createToken_enabled (ui (fst connected)) = true)
  /\ publicKey (ui (fst keyless)) = None
  /\ connectWallet_enabled (ui (fst keyless)) = true.
Proof.
  intros Hr Hc Hk connected keyless.
  destruct (connection_cases addr w Hr) as [(Hc0 & _)|(_ & Hcn & Hpk & Hf)];
    [congruence|].
  destruct (reachable_cases addr w Hr) as [(_ & Hb & _)|(k0 & Hf0 & _)];
    [|congruence].
  destruct w as [[wa pk cn b tx st sd sr] sol fl cs].
  cbn in Hc, Hcn, Hpk, Hf, Hb. subst cs cn fl b.
  unfold connected, keyless, render_header, render_createToken,
    createToken_enabled, connectWallet_enabled.
  handlers. cbn [truthy_opt]. rewrite Hk.
  repeat split; try reflexivity; subst st; reflexivity.
Qed.

(** X3, on the sample page: Phantom approves with the payer's key. *)
Lemma X3_witness :
  render_header
    (ui (fst (dispatch demo_address page_connecting
                (ConnectionSettled 0 (ConnectResolved (Some payer))))))
  = ConnectedAs "Connected: 4Nd1mYQzvgV8Vr3Z3nYb7pD6T8K3yJ8QbT9vX2aB5cDe".
Proof.
  destruct (X3_connection_success demo_address page_connecting payer)
    as (_ & _ & _ & H & _).
  - repeat (apply final_reachable); constructor.
  - reflexivity.
  - reflexivity.
  - exact H.
Defined.

(** X4.  A failed connection leaves the page as it was, with a message.
    Without any wallet handle the click alerts "No Solana wallet found…"
    and calls nothing; when [provider.connect()] is rejected with an error
    value its message (or "Failed to connect wallet") is alerted, the
    component still holds no key, the payment state is untouched and the
    connect button is enabled again. *)
Theorem X4_connection_failure
    (addr : PublicKey) (w : World) (m : option string) :
  reachable addr w -> connects w = [AwaitConnect] ->
  let rejected :=
    dispatch addr w (ConnectionSettled 0 (ConnectRejected (ErrorValue m))) in
  snd rejected
  = [ConsoleError (ErrorValue m);
     Alert (or_string m "Failed to connect wallet"); SetConnecting false]
  /\ publicKey (ui (fst rejected)) = publicKey (ui w)
  /\ connects (fst rejected) = []
  /\ core (fst rejected) = core w
  /\ connectWallet_enabled (ui (fst rejected)) = true
  /\ (forall w0 : World,
         connectWallet_enabled (ui w0) = true -> solana w0 = None ->
         dispatch addr w0 ClickConnectWallet
         = (w0,
            [SetConnecting true;
             ConsoleError
               (Error_new
                  "No Solana wallet found. Install Phantom and switch to Devnet.");
             Alert
               "No Solana wallet found. Install Phantom and switch to Devnet.";
             SetConnecting false])).
Proof.
  intros Hr Hc rejected.
  destruct (connection_cases addr w Hr) as [(Hc0 & _)|(_ & Hcn & Hpk & Hf)];
    [congruence|].
  destruct w as [[wa pk cn b tx st sd sr] sol fl cs].
  cbn in Hc, Hcn, Hpk, Hf. subst cs cn fl.
  unfold rejected, connectWallet_enabled. handlers. rewrite Hpk.
  repeat split; try reflexivity.
  intros [[wa0 pk0 cn0 b0 tx0 st0 sd0 sr0] sol0 fl0 cs0] He ->.
  unfold connectWallet_enabled in He. cbn in He.
  cbv [dispatch ui solana]. unfold connectWallet_enabled. cbn [publicKey connecting].
  rewrite He. apply andb_true_iff in He as [_ Hcn0].
  apply negb_true_iff in Hcn0. subst cn0. reflexivity.
Qed.

(** X4, on the sample page: the user closes Phantom's approval window. *)
Lemma X4_witness :
  snd (dispatch demo_address page_connecting
         (ConnectionSettled 0
            (ConnectRejected (Error_new "User rejected the request."))))
  = [ConsoleError (Error_new "User rejected the request.");
     Alert "User rejected the request."; SetConnecting false].
Proof.
  destruct (X4_connection_failure demo_address page_connecting
              (Some "User rejected the request.")) as (H & _).
  - repeat (apply final_reachable); constructor.
  - reflexivity.
  - exact H.
Defined.

(** X5.  On a reachable page an event either leaves the step alone or
    makes one of six changes: "Start" from [Intro] to [Form]; "Create
    Token" from [Form] to [Processing]; a rejection of the awaited call
    from [Processing] back to [Form]; the timer from [Processing] to
    [Error]; "Get a Refund" from [Error] to [RefundFunnel]; "Finish Demo"
    from [RefundFunnel] to [Done]. *)
Theorem X5_step_changes (addr : PublicKey) (w : World) (e : Event) :
  reachable addr w ->
  step (ui (fst (dispatch addr w e))) = step (ui w)
  \/ step_change (step (ui w)) e (step (ui (fst (dispatch addr w e)))) = true.
Proof.
  intros Hr.
  destruct (inert e) eqn:Hi.
  { left. pose proof (inert_core addr w e Hi) as Hc.
    apply core_eq in Hc as (_ & _ & _ & Hs). exact Hs. }
  pose proof (reachable_cases addr w Hr) as Hw.
  destruct w as [[wa pk cn b tx st sd sr] sol fl cs]; cbn in Hw.
  destruct Hw as [(-> & -> & _)|(k & -> & -> & -> & _)].
  - destruct e; try discriminate Hi.
    + destruct st; handlers; auto.
    + destruct st; try (handlers; auto; fail).
      destruct (truthy_opt pk) eqn:Hpk, (current_publicKey sol) eqn:Hk;
        handlers; rewrite ?Hpk, ?Hk; handlers; auto.
    + destruct st; handlers; auto.
    + destruct st; handlers; auto.
    + destruct i; handlers; auto.
    + handlers. cbn. auto.
  - destruct e; try discriminate Hi; try (handlers; auto; fail).
    + destruct i as [|[|i]]; try (handlers; auto; fail).
      destruct k, r as [bh h|sg| |[|m]]; handlers; auto.
    + destruct k as [f|bh h|sg bh h|rem]; try (handlers; cbn; auto; fail).
      cbv [dispatch elapse flows ui].
      destruct (rem <=? ms)%N; handlers; auto.
Qed.

(** X5, on the sample page: the timer after the confirmed payment. *)
Lemma X5_witness :
  step_change Processing (Elapse 1200)
    (step (ui (fst (dispatch demo_address page_after_payment (Elapse 1200)))))
  = true.
Proof.
  destruct (X5_step_changes demo_address page_after_payment (Elapse 1200))
    as [H|H].
  - repeat (apply final_reachable); constructor.
  - discriminate H.
  - exact H.
Defined.

Section Closed.
Variable addr : PublicKey.

Lemma after_payment_dispatch (w : World) (e : Event) :
  reachable addr w -> after_payment (step (ui w)) = true ->
  let w' := fst (dispatch addr w e) in
  after_payment (step (ui w')) = true
  /\ txSig (ui w') = txSig (ui w)
  /\ (step (ui w) = Done -> step (ui w') = Done)
  /\ forallb (fun a => negb (pipeline_call a)) (snd (dispatch addr w e))
     = true.
Proof.
  intros Hr Ha.
  pose proof (reachable_cases addr w Hr) as Hw.
  pose proof (connection_cases addr w Hr) as Hc.
  destruct w as [[wa pk cn b tx st sd sr] sol fl cs]; cbn in Hw, Hc, Ha.
  destruct Hw as [(-> & -> & _)|(k & _ & _ & -> & _)]; [|discriminate Ha].
  cbv zeta.
  destruct Hc as [(-> & _)|(-> & _)];
    (destruct st; try discriminate Ha;
     (destruct e;
      [ | | | | destruct (truthy_opt pk) eqn:Hpk, cn, sol | |
        | destruct sr | | destruct i
        | destruct i as [|[|i]], r as [k|[|m]] | ]);
     handlers; rewrite ?Hpk; handlers; cbn;
     repeat split; auto; discriminate).
Qed.

End Closed.

Lemma history_cons (addr : PublicKey) (w : World) (e : Event)
    (es : list Event) :
  history addr w (e :: es)
  = (e, snd (dispatch addr w e)) :: history addr (fst (dispatch addr w e)) es.
Proof.
  unfold history. cbn [run]. destruct (dispatch addr w e) as [w1 t].
  cbn [fst snd]. destruct (run addr w1 es). reflexivity.
Qed.

(** X6.  Once the step is [Error], [RefundFunnel] or [Done] there is no
    way back: whatever happens next, the step stays among these three (and
    [Done] stays [Done]), no payment flow is started or pending, [txSig]
    keeps its value, and the page never again calls the ledger or asks the
    wallet to sign. *)
Theorem X6_no_way_back (addr : PublicKey) (w : World) (es : list Event) :
  reachable addr w -> after_payment (step (ui w)) = true ->
  after_payment (step (ui (final addr w es))) = true
  /\ flows (final addr w es) = []
  /\ busy (ui (final addr w es)) = false
  /\ txSig (ui (final addr w es)) = txSig (ui w)
  /\ quiet (history addr w es) = true
  /\ (step (ui w) = Done -> step (ui (final addr w es)) = Done).
Proof.
  revert w. induction es as [|e es IH]; intros w Hr Ha.
  - destruct (reachable_cases addr w Hr)
      as [(Hf & Hb & _)|(k & _ & _ & Hs & _)];
      [|rewrite Hs in Ha; discriminate Ha].
    cbn. auto 10.
  - destruct (after_payment_dispatch addr w e Hr Ha) as (Ha1 & Htx1 & Hd1 & Hq1).
    assert (Hr1 : reachable addr (fst (dispatch addr w e)))
      by (constructor; exact Hr).
    destruct (IH _ Hr1 Ha1) as (Ha2 & Hf2 & Hb2 & Htx2 & Hq2 & Hd2).
    rewrite final_cons, history_cons.
    repeat split; auto; try congruence.
    unfold quiet in *. cbn [forallb snd]. rewrite Hq1, Hq2. reflexivity.
Qed.

(** X6, on the sample page at the end of the demo. *)
Lemma X6_witness :
  step (ui (final demo_address page_done frantic_clicks)) = Done
  /\ quiet (history demo_address page_done frantic_clicks) = true.
Proof.
  destruct (X6_no_way_back demo_address page_done frantic_clicks)
    as (_ & _ & _ & _ & Hq & Hd).
  - repeat (apply final_reachable); constructor.
  - reflexivity.
  - split; [apply Hd; reflexivity|exact Hq].
Defined.

(** X7.  A rejection of the awaited call whose reason is [null] or
    [undefined] strands the page: the catch block throws while reading the
    message, so nothing is alerted and the step is not put back; [finally]
    still releases [busy], the promise is rejected and nobody handles it;
    and from then on no event moves the step off [Processing], where no
    button of the flow is rendered. *)
Theorem X7_rejection_without_reason_strands
    (addr : PublicKey) (w : World) (k : FlowAwait) (es : list Event) :
  reachable addr w -> flows w = [k] -> is_delay k = false ->
  let stranded := dispatch addr w (FlowSettled 0 (Rejected Nullish)) in
  snd stranded
  = [ConsoleError Nullish; SetBusy false;
     UnhandledRejection TypeError_read_message]
  /\ step (ui (final addr (fst stranded) es)) = Processing
  /\ busy (ui (final addr (fst stranded) es)) = false
  /\ flows (final addr (fst stranded) es) = []
  /\ render_createToken (ui (final addr (fst stranded) es)) = None.
Proof.
  intros Hr Hf Hk stranded.
  destruct (reachable_cases addr w Hr)
    as [(Hf0 & _)|(k' & _ & Hb & Hs & _)]; [congruence|].
  assert (Hstuck : forall (es0 : list Event) (w0 : World),
             flows w0 = [] -> step (ui w0) = Processing ->
             busy (ui w0) = false ->
             flows (final addr w0 es0) = []
             /\ step (ui (final addr w0 es0)) = Processing
             /\ busy (ui (final addr w0 es0)) = false).
  { induction es0 as [|e es0 IH]; intros w0 H1 H2 H3; [cbn; auto|].
    rewrite final_cons.
    assert (Hc : core (fst (dispatch addr w0 e)) = core w0).
    { destruct (inert e) eqn:Hi; [apply inert_core, Hi|].
      destruct w0 as [[wa pk cn b tx st sd sr] sol fl cs].
      cbn in H1, H2, H3. subst fl st b.
      destruct e; try discriminate Hi; try reflexivity.
      destruct i; reflexivity. }
    apply core_eq in Hc as (Hc1 & Hc2 & _ & Hc4).
    apply IH; congruence. }
  assert (Hfirst : snd stranded
                   = [ConsoleError Nullish; SetBusy false;
                      UnhandledRejection TypeError_read_message]
                   /\ flows (fst stranded) = []
                   /\ step (ui (fst stranded)) = Processing
                   /\ busy (ui (fst stranded)) = false).
  { unfold stranded.
    destruct w as [[wa pk cn b tx st sd sr] sol fl cs].
    cbn in Hf, Hb, Hs. subst fl b st.
    destruct k; try discriminate Hk; repeat split; reflexivity. }
  destruct Hfirst as (Ht & H1 & H2 & H3).
  destruct (Hstuck es (fst stranded) H1 H2 H3) as (Hf' & Hs' & Hb').
  repeat split; auto.
  unfold render_createToken. rewrite Hs'. reflexivity.
Qed.

(** X7, on the sample page: the wallet rejects the signing request with no
    reason, and the visitor tries everything. *)
Lemma X7_witness :
  step (ui (final demo_address page_stranded frantic_clicks)) = Processing
  /\ busy (ui (final demo_address page_stranded frantic_clicks)) = false.
Proof.
  destruct (X7_rejection_without_reason_strands demo_address
              page_awaiting_signature (AwaitSignAndSend "R1" 100)
              frantic_clicks) as (_ & Hs & Hb & _).
  - repeat (apply final_reachable); constructor.
  - reflexivity.
  - reflexivity.
  - split; [exact Hs|exact Hb].
Defined.

(** X8.  Two branches of the form never show on a reachable page.  While
    the step is [Form] no payment is in flight and [txSig] is still
    [null], so the form's "View Payment on Explorer" link is not rendered
    and its button never reads "Processing…": it is "Create Token",
    enabled, when the component holds a key, and "Connect Wallet to
    Continue", disabled, when it does not. *)
Theorem X8_form_branches_never_shown (addr : PublicKey) (w : World) :
  reachable addr w -> step (ui w) = Form ->
  txSig (ui w) = JNull
  /\ render_payment_link (ui w) = None
  /\ busy (ui w) = false
  /\ render_createToken (ui w)
     = Some (if truthy_opt (publicKey (ui w))
             then mkButton "Create Token" false
             else mkButton "Connect Wallet to Continue" true).
Proof.
  intros Hr Hs.
  destruct (reachable_cases addr w Hr)
    as [(_ & Hb & Htx)|(k & _ & _ & Hs' & _)]; [|congruence].
  assert (Hnull : txSig (ui w) = JNull).
  { destruct Htx as [Htx|Hp]; [exact Htx|].
    rewrite Hs in Hp. discriminate Hp. }
  unfold render_payment_link, render_createToken.
  rewrite Hs, Hb, Hnull.
  destruct (truthy_opt (publicKey (ui w))); repeat split; reflexivity.
Qed.

(** X8, on the sample form. *)
Lemma X8_witness :
  render_createToken (ui page_on_form) = Some (mkButton "Create Token" false)
  /\ render_payment_link (ui page_on_form) = None.
Proof.
  destruct (X8_form_branches_never_shown demo_address page_on_form)
    as (_ & Hl & _ & Hb).
  - repeat (apply final_reachable); constructor.
  - reflexivity.
  - split; [exact Hb|exact Hl].
Defined.

(** X9.  Only a connected Phantom is picked up when the page opens: the
    component holds a key right after the mount exactly when the wallet
    handle is Phantom's, reports itself connected and has a key; and
    [walletAvailable] is set exactly when the handle is Phantom's,
    Coinbase's or Backpack's. *)
Theorem X9_mount_picks_up_phantom_only (p : option Provider) :
  (truthy_opt (publicKey (ui (mount p))) = true
   <-> exists provider k,
         p = Some provider /\ isPhantom provider = true
         /\ isConnected provider = true
         /\ provider_publicKey provider = Some k
         /\ truthy_string (toBase58 k) = true)
  /\ (walletAvailable (ui (mount p)) = true
      <-> exists provider,
            p = Some provider
            /\ (isPhantom provider = true \/ isCoinbase provider = true
                \/ isBackpack provider = true))
  /\ step (ui (mount p)) = Intro /\ txSig (ui (mount p)) = JNull
  /\ flows (mount p) = [] /\ connects (mount p) = [].
Proof.
  split; [|split].
  - split.
    + destruct p as [[[] cb bp [] [k|]]|]; handlers;
        cbn; try discriminate; intros H;
        eexists; eexists; repeat split; eauto.
    + intros (provider & k & -> & Hph & Hconn & Hk & Ht).
      destruct provider as [ph cb bp conn k0]; cbn in *. subst.
      handlers. exact Ht.
  - split.
    + destruct p as [[[] [] [] [] k]|]; handlers; try discriminate;
        intros _; eexists; split; eauto; cbn; auto.
    + intros (provider & -> & H).
      destruct provider as [ph cb bp conn k]; cbn in H.
      destruct H as [-> | [-> | ->]]; destruct conn;
        repeat match goal with x : bool |- _ => destruct x end; reflexivity.
  - destruct p as [[[] cb bp [] k]|]; repeat split; reflexivity.
Qed.

Section Probe.
Variable addr : PublicKey.

Lemma walletAvailable_final (w : World) (es : list Event) :
  walletAvailable (ui (final addr w es)) = walletAvailable (ui w).
Proof.
  revert w. induction es as [|e es IH]; intros w; [reflexivity|].
  rewrite final_cons, IH. apply walletAvailable_dispatch.
Qed.
End Probe.

(** X10.  The wallet probe is taken once, at the mount: no event changes
    [walletAvailable], so a page opened without a known wallet keeps the
    label "Install Phantom" on its connect button also after a wallet has
    appeared.  The click itself looks at the wallet handle, not at the
    probe: with any handle present it calls [provider.connect()]. *)
Theorem X10_probe_taken_once
    (addr : PublicKey) (p : option Provider) (es : list Event) :
  walletAvailable (ui (final addr (mount p) es)) = walletAvailable (ui (mount p))
  /\ (forall (w : World) (provider : Provider),
         connectWallet_enabled (ui w) = true ->
         solana w = Some provider ->
         snd (dispatch addr w ClickConnectWallet)
         = [SetConnecting true; ProviderConnect]
         /\ connects (fst (dispatch addr w ClickConnectWallet))
            = connects w ++ [AwaitConnect]
         /\ (walletAvailable (ui w) = false ->
             render_header (ui w) = ConnectButton "Install Phantom" false)).
Proof.
  split; [apply walletAvailable_final|].
  intros [[wa pk cn b tx st sd sr] sol fl cs] provider He Hsol.
  cbn in Hsol. subst sol.
  unfold connectWallet_enabled in He. cbn in He.
  apply andb_true_iff in He as [Hpk Hcn].
  apply negb_true_iff in Hpk, Hcn. subst cn.
  unfold render_header. handlers. rewrite Hpk. handlers.
  repeat split; try reflexivity. intros ->. reflexivity.
Qed.

Section Origins.
Variable addr : PublicKey.

Ltac origin_cases H :=
  cbn in H;
  repeat (destruct H as [H|H];
          [subst; cbn; auto; try (repeat split; congruence)|]);
  try destruct H.

(** X11.  The page calls the outside only for a reason on its page.
    [getLatestBlockhash] is called only by a click on an enabled "Create
    Token" with a key in the wallet handle; [confirmTransaction] only when
    [signAndSendTransaction] resolved, with [sig?.signature || sig] and
    the reference of that flow; [provider.connect()] only by a click on an
    enabled connect button with a wallet handle present; the 1200 ms timer
    and [setTxSig] only when [confirmTransaction] resolved. *)
Theorem X11_call_origins (w : World) (e : Event) (a : Action) :
  In a (snd (dispatch addr w e)) -> call_origin w e a.
Proof.
  destruct w as [[wa pk cn b tx0 st sd sr] sol fl cs].
  destruct e; intros H.
  - destruct st; origin_cases H.
  - cbv [dispatch ui solana] in H.
    destruct (createToken_enabled _) eqn:He; [|origin_cases H].
    destruct (current_publicKey sol) eqn:Hk; revert H; handlers;
      rewrite Hk; intros H; origin_cases H.
  - destruct st; origin_cases H.
  - destruct st; origin_cases H.
  - cbv [dispatch ui solana] in H.
    destruct (connectWallet_enabled _) eqn:He; [|origin_cases H].
    destruct sol; origin_cases H.
  - origin_cases H.
  - origin_cases H.
  - destruct sr; origin_cases H.
  - origin_cases H.
  - cbv [dispatch flows ui] in H.
    destruct (nth_error fl i) as [k|] eqn:Hi; [|origin_cases H].
    destruct k, r as [bh h|sg| |[|m]]; origin_cases H; eauto 10.
  - cbv [dispatch connects ui] in H.
    destruct (nth_error cs i) as [[]|]; [|origin_cases H].
    destruct r as [k|[|m]]; origin_cases H.
  - cbv [dispatch flows ui] in H.
    destruct (elapse ms fl _) as [[fl' s'] t'] eqn:E. cbn in H.
    pose proof (elapse_actions ms fl (mkUI wa pk cn b tx0 st sd sr) a) as Ha.
    rewrite E in Ha. destruct (Ha H) as [-> | ->]; exact I.
Qed.
End Origins.

(** X11, on the sample page: the wallet has just answered. *)
Lemma X11_witness :
  call_origin page_awaiting_signature
    (FlowSettled 0 (SignatureResolved (JString "SIG1")))
    (ConfirmTransaction (JString "SIG1") "R1" 100 "confirmed").
Proof.
  apply (X11_call_origins demo_address page_awaiting_signature
           (FlowSettled 0 (SignatureResolved (JString "SIG1")))
           (ConfirmTransaction (JString "SIG1") "R1" 100 "confirmed")).
  left. reflexivity.
Defined.

Section Provenance.
Variable addr : PublicKey.

(** [known] holds of the signatures for which [confirmTransaction] was
    called before the page [w]. *)
Lemma provenance_dispatch (known : JsVal -> Prop) (w : World) (e : Event) :
  page_invariant w ->
  (txSig (ui w) = JNull \/ known (txSig (ui w))) ->
  (forall sg bh h, flows w = [AwaitConfirm sg bh h] -> known sg) ->
  let w' := fst (dispatch addr w e) in
  let known' := fun sg =>
    known sg
    \/ exists bh h,
         In (ConfirmTransaction sg bh h "confirmed")
            (snd (dispatch addr w e)) in
  (txSig (ui w') = JNull \/ known' (txSig (ui w')))
  /\ (forall sg bh h, flows w' = [AwaitConfirm sg bh h] -> known' sg).
Proof.
  intros Hw Htx Hfl. cbv zeta.
  destruct (inert e) eqn:Hi.
  { pose proof (inert_core addr w e Hi) as Hc.
    apply core_eq in Hc as (Hf & _ & Ht & _). rewrite Hf, Ht.
    split; [tauto|]. intros sg bh h H. left. eauto. }
  unfold page_invariant in Hw.
  destruct w as [[wa pk cn b tx st sd sr] sol fl cs]; cbn in Hw, Htx, Hfl.
  destruct fl as [|k [|k' fl]]; [| |contradiction].
  - destruct e; try discriminate Hi.
    + destruct st; handlers; (split; [tauto|discriminate]).
    + destruct st; try (handlers; (split; [tauto|discriminate])).
      destruct (truthy_opt pk) eqn:Hpk, b, (current_publicKey sol) eqn:Hk;
        handlers; rewrite ?Hpk, ?Hk; handlers;
        (split; [tauto|discriminate]).
    + destruct st; handlers; (split; [tauto|discriminate]).
    + destruct st; handlers; (split; [tauto|discriminate]).
    + destruct i; handlers; (split; [tauto|discriminate]).
    + handlers. cbn. split; [tauto|discriminate].
  - destruct Hw as (-> & -> & _).
    destruct e; try discriminate Hi;
      try (handlers; split; [tauto|intros sg bh h H; left; eauto]).
    + destruct i as [|[|i]];
        try (handlers; split; [tauto|intros sg bh h H; left; eauto]).
      destruct k, r as [bh0 h0|sg0| |[|m]]; handlers;
        (split; [try tauto|try discriminate]).
      * intros sg bh h H. injection H as <- <- <-. right.
        eexists; eexists. left. reflexivity.
      * intros sg bh h H. left. eauto.
      * intros sg bh h H. left. eauto.
      * right. left. eauto.
    + destruct k as [f|bh0 h0|sg0 bh0 h0|rem];
        try (handlers; cbn; split; [tauto|intros sg bh h H; left; eauto]).
      cbv [dispatch elapse flows ui].
      destruct (rem <=? ms)%N; handlers; (split; [tauto|discriminate]).
Qed.

Lemma provenance_run (es : list Event) :
  forall (known : JsVal -> Prop) (w : World),
    page_invariant w ->
    (txSig (ui w) = JNull \/ known (txSig (ui w))) ->
    (forall sg bh h, flows w = [AwaitConfirm sg bh h] -> known sg) ->
    txSig (ui (final addr w es)) = JNull
    \/ known (txSig (ui (final addr w es)))
    \/ confirmation_requested (history addr w es) (txSig (ui (final addr w es))).
Proof.
  induction es as [|e es IH]; intros known w Hw Htx Hfl.
  - cbn. tauto.
  - destruct (provenance_dispatch known w e Hw Htx Hfl) as [Htx1 Hfl1].
    pose proof (dispatch_invariant addr w e Hw) as Hw1.
    specialize (IH _ _ Hw1 Htx1 Hfl1).
    rewrite final_cons, history_cons.
    destruct IH as [H|[[H|(bh & h & H)]|(e0 & t0 & bh & h & Hin & Ha)]]; auto.
    + right. right. exists e, (snd (dispatch addr w e)), bh, h.
      split; [left; reflexivity|exact H].
    + right. right. exists e0, t0, bh, h. split; [right; exact Hin|exact Ha].
Qed.
End Provenance.

(** X12.  Whatever [txSig] holds was first handed to the ledger client:
    in every run from the mount, a [txSig] other than [null] is a
    signature for which the page called [confirmTransaction] earlier in
    that run. *)
Theorem X12_displayed_signature_was_submitted
    (addr : PublicKey) (p : option Provider) (es : list Event) :
  txSig (ui (final addr (mount p) es)) <> JNull ->
  confirmation_requested (history addr (mount p) es)
    (txSig (ui (final addr (mount p) es))).
Proof.
  intros Hn.
  destruct (provenance_run addr es (fun _ => False) (mount p))
    as [H|[[]|H]].
  - apply mount_invariant.
  - left. destruct p as [[[] cb bp [] k]|]; reflexivity.
  - destruct p as [[[] cb bp [] k]|]; discriminate.
  - contradiction.
  - exact H.
Qed.

(** X12, on the sample page's confirmed payment. *)
Lemma X12_witness :
  confirmation_requested (history demo_address (mount phantom_wallet) paid_run)
    (JString "SIG1").
Proof.
  apply (X12_displayed_signature_was_submitted demo_address phantom_wallet
           paid_run).
  discriminate.
Defined.

Lemma append_assoc (a b c : string) :
  ((a ++ b) ++ c = a ++ (b ++ c))%string.
Proof. induction a as [|x a IH]; cbn; [reflexivity|]. rewrite IH. reflexivity. Qed.

Lemma append_empty_r (a : string) : (a ++ "")%string = a.
Proof. induction a as [|x a IH]; cbn; [reflexivity|]. rewrite IH. reflexivity. Qed.

Lemma truthy_append (a b : string) :
  truthy_string a = true -> truthy_string (a ++ b)%string = true.
Proof. destruct a; [discriminate|reflexivity]. Qed.

(** Joining non-empty strings gives the empty string only from the empty
    list. *)
Lemma join_truthy (sep : string) (l : list string) :
  forallb truthy_string l = true ->
  truthy_string (join sep l) = negb (match l with [] => true | _ => false end).
Proof.
  destruct l as [|a l]; [reflexivity|]. cbn [forallb].
  intros H. apply andb_true_iff in H as [Ha _].
  destruct l; cbn [join negb]; [exact Ha|apply truthy_append, Ha].
Qed.

Lemma join_app (sep : string) (l1 l2 : list string) :
  l1 <> [] -> l2 <> [] ->
  join sep (l1 ++ l2) = (join sep l1 ++ sep ++ join sep l2)%string.
Proof.
  intros H1 H2. induction l1 as [|a l1 IH]; [contradiction|].
  destruct l1 as [|b l1].
  - cbn [app join]. destruct l2; [contradiction|reflexivity].
  - cbn [app join] in *. rewrite IH by discriminate.
    rewrite !append_assoc. reflexivity.
Qed.

Lemma filter_truthy (l : list string) :
  forallb truthy_string (filter truthy_string l) = true.
Proof.
  induction l as [|a l IH]; [reflexivity|]. cbn.
  destruct (truthy_string a) eqn:Ha; [cbn; rewrite Ha; exact IH|exact IH].
Qed.

(** X13.  [cx] drops the empty class strings and puts single spaces
    between the others: the classes of two lists put together are the
    classes of each, with one space between them when both are non-empty;
    a single string comes back as it is; and the result is empty exactly
    when every argument is. *)
Theorem X13_cx_glues (l1 l2 : list string) (s : string) :
  cx (l1 ++ l2) = glue (cx l1) (cx l2)
  /\ cx [s] = s
  /\ (truthy_string (cx l1) = false
      <-> forallb (fun c => negb (truthy_string c)) l1 = true).
Proof.
  unfold cx, glue. refine (conj _ (conj _ _)).
  - rewrite filter_app.
    rewrite (join_truthy " " _ (filter_truthy l1)).
    rewrite (join_truthy " " _ (filter_truthy l2)).
    destruct (filter truthy_string l1) as [|a f1] eqn:E1;
      [reflexivity|].
    destruct (filter truthy_string l2) as [|b f2] eqn:E2.
    + rewrite app_nil_r. reflexivity.
    + cbn [negb]. apply join_app; discriminate.
  - cbn. destruct s; reflexivity.
  - rewrite (join_truthy " " _ (filter_truthy l1)).
    induction l1 as [|a l1 IH]; [cbn; tauto|].
    cbn [filter forallb]. destruct (truthy_string a); cbn; [|exact IH].
    split; discriminate.
Qed.



(** X15.  The fee payer is the key the wallet handle held at the click,
    kept in a local variable: neither the key the header shows nor a
    change of the wallet handle between the click and the answer of
    [getLatestBlockhash] has any part in the transaction, and neither the
    key the component holds nor the header changes on the way. *)
Theorem X15_fee_payer_captured_at_click
    (addr : PublicKey) (w : World) (k : PublicKey) (later : option Provider)
    (bh : string) (h : N) :
  reachable addr w -> createToken_enabled (ui w) = true ->
  current_publicKey (solana w) = Some k ->
  let steps :=
    [ClickCreateToken; WalletChanged later;
     FlowSettled 0 (BlockhashResolved bh h)] in
  history addr w steps
  = [(ClickCreateToken,
      [SetBusy true; SetStep Processing; GetLatestBlockhash "confirmed"]);
     (WalletChanged later, []);
     (FlowSettled 0 (BlockhashResolved bh h),
      [SignAndSendTransaction
         (mkTransaction bh k [mkTransfer k addr 1000000])])]
  /\ publicKey (ui (final addr w steps)) = publicKey (ui w)
  /\ render_header (ui (final addr w steps)) = render_header (ui w).
Proof.
  intros Hr He Hk steps.
  pose proof (reachable_cases addr w Hr) as Hw.
  destruct w as [[wa pk cn b tx st sd sr] sol fl cs].
  cbn in Hw, He, Hk.
  unfold createToken_enabled in He. cbn in He.
  destruct st; try discriminate He.
  destruct (truthy_opt pk) eqn:Hpk; [|discriminate He].
  destruct b; [discriminate He|].
  destruct Hw as [(-> & _)|(k0 & _ & Hb & _)]; [|discriminate Hb].
  unfold steps, history, final, render_header. cbn [run].
  handlers. rewrite Hpk, Hk. handlers. rewrite Hpk.
  repeat split; reflexivity.
Qed.

(** X15, on the sample form after the visitor switched accounts: the
    header still shows the first account, the transfer is paid by the
    second. *)
Lemma X15_witness :
  history demo_address page_account_switched
    [ClickCreateToken; WalletChanged None;
     FlowSettled 0 (BlockhashResolved "R1" 100)]
  = [(ClickCreateToken,
      [SetBusy true; SetStep Processing; GetLatestBlockhash "confirmed"]);
     (WalletChanged None, []);
     (FlowSettled 0 (BlockhashResolved "R1" 100),
      [SignAndSendTransaction
         (mkTransaction "R1" other_account
            [mkTransfer other_account demo_address 1000000])])]
  /\ render_header (ui page_account_switched)
     = ConnectedAs "Connected: 4Nd1mYQzvgV8Vr3Z3nYb7pD6T8K3yJ8QbT9vX2aB5cDe".
Proof.
  destruct (X15_fee_payer_captured_at_click demo_address
              page_account_switched other_account None "R1" 100)
    as (H & _).
  - repeat (apply final_reachable); constructor.
  - reflexivity.
  - reflexivity.
  - split; [exact H|reflexivity].
Defined.

Section ViewFlags.
Variable addr : PublicKey.

Lemma view_flags_dispatch (w : World) (e : Event) :
  showDetails (ui (fst (dispatch addr w e)))
  = xorb (showDetails (ui w)) (is_toggle e)
  /\ showRedFlags (ui (fst (dispatch addr w e)))
     = match e with
       | ClickShowRedFlags => true
       | ClickCloseRedFlags => false
       | _ => showRedFlags (ui w)
       end.
Proof.
  destruct w as [[wa pk cn b tx st sd sr] sol fl cs].
  destruct e.
  - destruct st, sd; split; reflexivity.
  - destruct st; try (destruct sd; split; reflexivity).
    destruct (truthy_opt pk) eqn:Hpk, b, (current_publicKey sol) eqn:Hk;
      handlers; rewrite ?Hpk, ?Hk; destruct sd; split; reflexivity.
  - destruct st, sd; split; reflexivity.
  - destruct st, sd; split; reflexivity.
  - destruct (truthy_opt pk) eqn:Hpk, cn, sol; handlers; rewrite ?Hpk;
      destruct sd; split; reflexivity.
  - destruct sd; split; reflexivity.
  - destruct sd; split; reflexivity.
  - destruct sr, sd; split; reflexivity.
  - destruct sd; split; reflexivity.
  - cbv [dispatch flows ui].
    destruct (nth_error fl i) as [k|]; [|destruct sd; split; reflexivity].
    destruct k, r as [bh h|sg| |[|m]]; destruct sd; split; reflexivity.
  - cbv [dispatch connects ui].
    destruct (nth_error cs i) as [[]|]; [|destruct sd; split; reflexivity].
    destruct r as [k|[|m]]; destruct sd; split; reflexivity.
  - cbv [dispatch flows ui].
    destruct (elapse_frame ms fl (mkUI wa pk cn b tx st sd sr))
      as (_ & _ & _ & Hd & Hr).
    destruct (elapse ms fl _) as [[fl' s'] t']. cbn in *.
    rewrite Hd, Hr. destruct sd; split; reflexivity.
Qed.
End ViewFlags.

(** X16.  The two view flags answer to their own buttons only, whatever
    else happens on the page: after any run [showDetails] has flipped
    once per click on the details button, and [showRedFlags] is where the
    last click on "Show Red Flags" or "Close" left it. *)
Theorem X16_view_flags (addr : PublicKey) (w : World) (es : list Event) :
  showDetails (ui (final addr w es))
  = xorb (showDetails (ui w)) (Nat.odd (toggles es))
  /\ showRedFlags (ui (final addr w es))
     = red_flags_after (showRedFlags (ui w)) es.
Proof.
  revert w. induction es as [|e es IH]; intros w.
  - cbn. rewrite xorb_false_r. auto.
  - rewrite final_cons. destruct (IH (fst (dispatch addr w e))) as [Hd Hr].
    destruct (view_flags_dispatch addr w e) as [Hd1 Hr1].
    rewrite Hd, Hr, Hd1, Hr1. split.
    + unfold toggles. cbn [filter]. destruct (is_toggle e); cbn [length].
      * rewrite PeanoNat.Nat.odd_succ, <- PeanoNat.Nat.negb_odd.
        destruct (showDetails (ui w)), (Nat.odd (length (filter is_toggle es)));
          reflexivity.
      * rewrite xorb_false_r. reflexivity.
    + cbn [red_flags_after fold_left]. destruct e; reflexivity.
Qed.

Section OnePayment.
Variable addr : PublicKey.

Lemma elapse_writes (ms : N) (fl : list FlowAwait) (s : UIState) :
  filter is_SetTxSig (snd (elapse ms fl s)) = [].
Proof.
  pose proof (elapse_actions ms fl s) as H.
  induction (snd (elapse ms fl s)) as [|a t IH]; [reflexivity|].
  cbn [filter]. destruct (H a (or_introl eq_refl)) as [-> | ->];
    cbn; apply IH; intros a' Ha'; apply H; right; exact Ha'.
Qed.

(** The [setTxSig] calls of one event. *)
Lemma txSig_writes_dispatch (w : World) (e : Event) :
  filter is_SetTxSig (snd (dispatch addr w e))
  = match e with
    | FlowSettled i ConfirmResolved =>
        match nth_error (flows w) i with
        | Some (AwaitConfirm signature _ _) => [SetTxSig signature]
        | _ => []
        end
    | _ => []
    end.
Proof.
  destruct w as [[wa pk cn b tx st sd sr] sol fl cs].
  destruct e.
  - destruct st; reflexivity.
  - destruct st; try reflexivity.
    destruct (truthy_opt pk) eqn:Hpk, b, (current_publicKey sol) eqn:Hk;
      handlers; rewrite ?Hpk, ?Hk; reflexivity.
  - destruct st; reflexivity.
  - destruct st; reflexivity.
  - destruct (truthy_opt pk) eqn:Hpk, cn, sol; handlers; rewrite ?Hpk;
      reflexivity.
  - reflexivity.
  - reflexivity.
  - destruct sr; reflexivity.
  - reflexivity.
  - cbv [dispatch flows ui].
    destruct (nth_error fl i) as [k|]; [|destruct r; reflexivity].
    destruct k, r as [bh h|sg| |[|m]]; reflexivity.
  - cbv [dispatch connects ui].
    destruct (nth_error cs i) as [[]|]; [|reflexivity].
    destruct r as [k|[|m]]; reflexivity.
  - cbv [dispatch flows ui].
    pose proof (elapse_writes ms fl (mkUI wa pk cn b tx st sd sr)) as H.
    destruct (elapse ms fl _) as [[fl' s'] t']. exact H.
Qed.

Lemma paid_dispatch (w : World) (e : Event) :
  reachable addr w -> paid w -> paid (fst (dispatch addr w e)).
Proof.
  intros Hr [[Hf Ha]|[rem Hf]].
  - left. destruct (after_payment_dispatch addr w e Hr Ha) as (Ha1 & _).
    split; [|exact Ha1].
    destruct (reachable_cases addr (fst (dispatch addr w e)))
      as [(Hf1 & _)|(k & _ & _ & Hs & _)]; [constructor; exact Hr|exact Hf1|].
    cbv zeta in Ha1. rewrite Hs in Ha1. discriminate Ha1.
  - destruct (inert e) eqn:Hi.
    { right. exists rem. pose proof (inert_core addr w e Hi) as Hc.
      apply core_eq in Hc as (Hf1 & _). congruence. }
    destruct (reachable_cases addr w Hr)
      as [(Hf0 & _)|(k & Hk & Hb & Hs & _)]; [congruence|].
    destruct w as [[wa pk cn b tx st sd sr] sol fl cs].
    cbn in Hf, Hb, Hs. subst fl b st.
    destruct e; try discriminate Hi;
      try (right; exists rem; reflexivity).
    + destruct i as [|[|i]]; right; exists rem; reflexivity.
    + cbv [dispatch elapse flows ui paid].
      destruct (rem <=? ms)%N; handlers; [left; auto|right; eauto].
Qed.

Lemma paid_history (es : list Event) :
  forall w : World,
    reachable addr w -> paid w -> txSig_writes (history addr w es) = 0%nat.
Proof.
  induction es as [|e es IH]; intros w Hr Hp; [reflexivity|].
  rewrite history_cons. cbn [txSig_writes].
  rewrite txSig_writes_dispatch, IH;
    [|constructor; exact Hr|apply paid_dispatch; assumption].
  destruct e; try reflexivity. destruct r; try reflexivity.
  destruct Hp as [[-> _]|[rem ->]].
  - destruct i; reflexivity.
  - destruct i as [|[|i]]; reflexivity.
Qed.

Lemma writes_history (es : list Event) :
  forall w : World,
    reachable addr w -> (txSig_writes (history addr w es) <= 1)%nat.
Proof.
  induction es as [|e es IH]; intros w Hr; [cbn; lia|].
  assert (Hr1 : reachable addr (fst (dispatch addr w e)))
    by (constructor; exact Hr).
  rewrite history_cons. cbn [txSig_writes]. rewrite txSig_writes_dispatch.
  specialize (IH _ Hr1).
  destruct e; try exact IH. destruct r; try exact IH.
  destruct (nth_error (flows w) i) as [[]|] eqn:Hi; try exact IH.
  (* the confirmation: from here on the page is paid *)
  destruct (reachable_cases addr w Hr)
    as [(Hf & _)|(k & Hf & _)]; rewrite Hf in Hi.
  { destruct i; discriminate Hi. }
  destruct i as [|[|i]]; try discriminate Hi. injection Hi as ->.
  destruct (confirm_resolved addr w _ _ _ Hf) as [Hc _].
  apply core_eq in Hc as (Hf1 & _).
  rewrite paid_history; [cbn; lia|exact Hr1|right; eauto].
Qed.
End OnePayment.

(** X17.  One visit records at most one payment: in every run from the
    mount [setTxSig] runs at most once, however often the visitor is
    turned away and tries again, and once it has run no later event makes
    it run again. *)
Theorem X17_one_payment_per_visit
    (addr : PublicKey) (p : option Provider) (es later : list Event) :
  (txSig_writes (history addr (mount p) es) <= 1)%nat
  /\ (txSig_writes (history addr (mount p) es) = 1%nat ->
      txSig_writes (history addr (final addr (mount p) es) later) = 0%nat).
Proof.
  split; [apply writes_history; constructor|].
  intros H1.
  assert (Hsum : forall (es1 es2 : list Event) (w : World),
             history addr w (es1 ++ es2)
             = history addr w es1 ++ history addr (final addr w es1) es2).
  { induction es1 as [|e es1 IH]; intros es2 w; [reflexivity|].
    cbn [app]. rewrite !history_cons, final_cons, IH. reflexivity. }
  assert (Happ : forall tr1 tr2,
             txSig_writes (tr1 ++ tr2)
             = (txSig_writes tr1 + txSig_writes tr2)%nat).
  { induction tr1 as [|[e t] tr1 IH]; intros tr2; [reflexivity|].
    cbn [app txSig_writes]. rewrite IH. lia. }
  pose proof (writes_history addr (es ++ later) (mount p)
                (reachable_mount addr p)) as Hle.
  rewrite Hsum, Happ, H1 in Hle. lia.
Qed.

(** X17, on the sample page with a persistent visitor. *)
Lemma X17_witness :
  txSig_writes (history demo_address (mount phantom_wallet) persistent_visitor)
  = 1%nat
  /\ txSig_writes
       (history demo_address
          (final demo_address (mount phantom_wallet) persistent_visitor)
          frantic_clicks) = 0%nat.
Proof.
  destruct (X17_one_payment_per_visit demo_address phantom_wallet
              persistent_visitor frantic_clicks) as [_ H].
  split; [reflexivity|apply H; reflexivity].
Defined.
